(** * Space traffic analytics: trajectory computation and result caching

    A shallow embedding of two programs of the repository:

    - [src/transformation/physics.py]: the module-level time grid
      ([timeVector]) and [get_position], which turns one orbital element
      set into a ground track and a mean altitude;
    - [src/visualization/main.py]: [load_data_smart], the loader that
      serves the computed catalog from process memory, from a pickled
      snapshot in object storage, or from the warehouse.

    Numbers are modelled as the code has them: latitudes, longitudes and
    elevations are IEEE binary64 values (Python [float], NumPy [float64]),
    here Rocq's primitive floats, so that NaN behaves as it does at run time.
    Instants are modelled exactly, as rational day numbers. *)

From Stdlib Require Import String.
From Stdlib Require Import ZArith QArith List Bool Lia Floats Uint63.
From Stdlib Require Import Ascii Sorted Qround.
Import ListNotations.

Open Scope Z_scope.

(** ** physics.py, lines 1-16: the time grid *)

Module TimeGrid.

(** A timezone-aware UTC [datetime]: the calendar date as a day number
    (what [date.toordinal()] returns) and the time of day. *)
Record datetime := mk_datetime {
  date : Z;
  hour : Z;
  minute : Z;
  second : Z;
  microsecond : Z
}.

(** [now.replace(hour = 0, minute = 0, second = 0, microsecond = 0)] *)
Definition replace_midnight (now : datetime) : datetime :=
  {| date := date now; hour := 0; minute := 0; second := 0; microsecond := 0 |}.

(** [ts.from_datetime(d)]: the instant of [d] as a day number with its
    fraction of a day. *)
Definition from_datetime (d : datetime) : Q :=
  (inject_Z (date d)
   + inject_Z (hour d) / 24
   + inject_Z (minute d) / 1440
   + inject_Z (second d) / 86400
   + inject_Z (microsecond d) / 86400000000)%Q.

(** [np.arange(start, stop, step)] on integers with a positive step:
    [ceil((stop - start) / step)] values [start + k * step]. *)
Definition arange (start stop step : Z) : list Z :=
  map (fun k => start + Z.of_nat k * step)
      (seq 0 (Z.to_nat ((stop - start + step - 1) / step))).

(** [minutes = np.arange(0, 1440, 10)] *)
Definition minutes : list Z := arange 0 1440 10.

(** [midnight] and [start_time], as functions of the [now] read at import. *)
Definition midnight (now : datetime) : datetime := replace_midnight now.

Definition start_time (now : datetime) : Q := from_datetime (midnight now).

(** [timeVector = start_time + (minutes / 1440.0)] *)
Definition timeVector (now : datetime) : list Q :=
  map (fun m => (start_time now + inject_Z m / 1440)%Q) minutes.

End TimeGrid.

Import TimeGrid.

(** ** physics.py, lines 18-41: [get_position] *)

Module Physics.

(** One element of [path]: the dict with keys ['timestamp'], ['lat'] and
    ['lon'].  The timestamp is kept as the grid instant [t_obj] whose UTC
    rendering [str(t_obj.utc_datetime())] the code stores. *)
Record point := mk_point {
  timestamp : Q;
  lat : float;
  lon : float
}.

(** What [wgs84.geographic_position_of] yields at one instant: latitude and
    longitude in degrees, elevation in kilometres.  Skyfield reports a
    propagation failure at an instant as NaN coordinates, not as an
    exception. *)
Record geographic := mk_geographic {
  latitude_degrees : float;
  longitude_degrees : float;
  elevation_km : float
}.

(** NumPy's sum of a [float64] array, as [np.mean] takes it
    ([DOUBLE_pairwise_sum]): fewer than 8 entries are added one by one from
    0.0; up to 128 entries are added into eight running sums, entry [i] into
    sum [i mod 8], which are then combined pair by pair before the entries
    left over past the last full group of eight are added one by one; a
    longer array is cut at half its length, rounded down to a multiple of
    8, and the sums of the two pieces are added. *)
Definition sum_from (start : float) (a : list float) : float :=
  fold_left PrimFloat.add a start.

Fixpoint unrolled_sum (r0 r1 r2 r3 r4 r5 r6 r7 : float) (a : list float)
  : float :=
  match a with
  | x0 :: x1 :: x2 :: x3 :: x4 :: x5 :: x6 :: x7 :: rest =>
      unrolled_sum (r0 + x0) (r1 + x1) (r2 + x2) (r3 + x3)
                   (r4 + x4) (r5 + x5) (r6 + x6) (r7 + x7) rest
  | _ => sum_from (((r0 + r1) + (r2 + r3)) + ((r4 + r5) + (r6 + r7))) a
  end%float.

Definition block_sum (a : list float) : float :=
  match a with
  | x0 :: x1 :: x2 :: x3 :: x4 :: x5 :: x6 :: x7 :: rest =>
      unrolled_sum x0 x1 x2 x3 x4 x5 x6 x7 rest
  | _ => sum_from 0%float a
  end.

(** [fuel] bounds the depth of the cuts; the length of the array is always
    enough ([pairwise_sum_fuel] below). *)
Fixpoint pairwise_sum (fuel : nat) (a : list float) : float :=
  match fuel with
  | O => block_sum a
  | S fuel' =>
      let n := length a in
      if (n <=? 128)%nat then block_sum a
      else
        let n2 := (n / 2 - (n / 2) mod 8)%nat in
        (pairwise_sum fuel' (firstn n2 a) + pairwise_sum fuel' (skipn n2 a))%float
  end.

(** The reduction starts from 0.0 and adds the pairwise sum to it. *)
Definition np_sum (a : list float) : float :=
  (0 + pairwise_sum (length a) a)%float.

(** [np.mean] of a [float64] array as NumPy computes it: the sum above
    divided by the number of entries (an empty array gives 0/0 = NaN). *)
Definition pairwise_mean (a : list float) : float :=
  (np_sum a / PrimFloat.of_uint63 (Uint63.of_Z (Z.of_nat (length a))))%float.

(** Python's [zip] of three sequences stops with the shortest. *)
Definition zip3 {A B C : Type} (a : list A) (b : list B) (c : list C)
  : list (A * B * C) :=
  combine (combine a b) c.

Section GetPosition.

(** The OMM record of one object, and Skyfield's [EarthSatellite]. *)
Variables sat_data satellite : Type.

(** [EarthSatellite.from_omm(ts, sat_data)]; [None] when it raises. *)
Variable from_omm : sat_data -> option satellite.

(** [wgs84.geographic_position_of(satellite.at(t))] at one instant; on the
    array [timeVector] Skyfield works instant by instant. *)
Variable geographic_position_of : satellite -> Q -> geographic.

(** Python's [round(float(x), 2)]. *)
Variable round2 : float -> float.

(** [np.mean] on the array of elevations. *)
Variable np_mean : list float -> float.

(** The clock reading taken when the module is imported (line 8). *)
Variable now : datetime.

(** [None] stands for an exception leaving [get_position]. *)
Definition get_position (sd : sat_data) : option (list point * float) :=
  match from_omm sd with
  | None => None
  | Some sat =>
      let geo_pos := map (geographic_position_of sat) (timeVector now) in
      let lats := map latitude_degrees geo_pos in
      let lons := map longitude_degrees geo_pos in
      let alts := map elevation_km geo_pos in
      let path :=
        map (fun '(t_obj, la, lo) =>
               {| timestamp := t_obj; lat := round2 la; lon := round2 lo |})
            (zip3 (timeVector now) lats lons) in
      Some (path, np_mean alts)
  end.

End GetPosition.

Arguments get_position {sat_data satellite} from_omm geographic_position_of
  round2 np_mean now sd.

(** [row.Trajectory[time_index]] (main.py, line 290) for an index that is
    not negative: the element at that position, or nothing (an
    [IndexError]) past the end.  No timestamp is compared. *)
Definition trajectory_at (path : list point) (time_index : nat)
  : option point :=
  nth_error path time_index.

(** A sample counts as successful when all three coordinates are finite. *)
Definition sample_ok (g : geographic) : bool :=
  PrimFloat.is_finite (latitude_degrees g)
  && PrimFloat.is_finite (longitude_degrees g)
  && PrimFloat.is_finite (elevation_km g).

(** The point [get_position] builds from one sample. *)
Definition point_of (round2 : float -> float) (t : Q) (g : geographic)
  : point :=
  {| timestamp := t;
     lat := round2 (latitude_degrees g);
     lon := round2 (longitude_degrees g) |}.

End Physics.

Import Physics.
(** ** main.py, lines 27-101: the module globals and [load_data_smart] *)

Module Dashboard.

(** *** The data frames *)

(** One element of a trajectory as the dashboard reads it.  The stored
    timestamp string is represented by what [pd.to_datetime(_, utc=True)]
    makes of it: [None] is a string it rejects. *)
Record traj_point := mk_traj_point {
  pt_timestamp : option datetime;
  pt_lat : float;
  pt_lon : float
}.

(** A cell of the [Trajectory] column: a [str] holding JSON, represented by
    what [json.loads] makes of it ([None]: it raises), or a list already. *)
Inductive trajectory_cell :=
| TrajectoryStr (decoded : option (list traj_point))
| TrajectoryList (pts : list traj_point).

(** A row of [df_main], with the columns the loader and the map touch.
    [Avg_Altitude] is [None] for a value that is not a number. *)
Record row := mk_row {
  Object_Name : string;
  Owner : string;
  Orbit : string;
  Trajectory : trajectory_cell;
  Avg_Altitude : option float
}.

Definition dataframe := list row.

(** A row of [orbital_kpis_view]. *)
Record kpi_row := mk_kpi_row {
  Total_Objects : Z;
  Payload_Count : Z;
  Debris_Count : Z;
  Debris_Ratio_Pct : float
}.

Definition kpiframe := list kpi_row.

(** An entry of [search_options]: [{'label': name, 'value': name}]. *)
Record search_option := mk_search_option {
  label : string;
  value : string
}.

(** *** The module-level globals (lines 27-30) *)

Record globals := mk_globals {
  df_main : option dataframe;
  df_kpi : option kpiframe;
  timestamps : list datetime;
  search_options : list search_option
}.

(** The values the module starts with: [None], [None], [[]], [[]]. *)
Definition initial_globals : globals :=
  {| df_main := None; df_kpi := None; timestamps := []; search_options := [] |}.

(** *** The persisted snapshot *)

(** The dict pickled under [CACHE_FILENAME]: keys ['main'], ['kpi'] and
    ['timestamps']. *)
Record cached_data := mk_cached_data {
  c_main : dataframe;
  c_kpi : kpiframe;
  c_timestamps : list datetime
}.

(** What the blob holds: a pickled snapshot; a pickled dict that has the
    keys ['timestamps'] and ['main'] and lacks ['kpi'], so that the lookup of
    line 56 raises once line 55 has assigned; or bytes that raise before
    anything is assigned ([pd.read_pickle] rejects them, or ['timestamps'] or
    ['main'] is missing).  A pickled frame has the columns of [row]. *)
Inductive blob_content :=
| Unreadable
| Pickled (d : cached_data)
| PickledWithoutKpi (main : dataframe) (ts : list datetime).

(** *** Effects *)

Inductive level := INFO | WARNING | ERROR | CRITICAL.

Inductive query :=
| TransformedSatellites  (* q1: transformed_orbital_satellites_data *)
| KpisView.              (* q2: orbital_kpis_view *)

(** The calls that leave the process, and the log lines, in order. *)
Inductive event :=
| Logged (lvl : level) (msg : string)
| BlobExists
| BlobDownload
| ReadGbq (q : query)
| BlobUpload.

(** What one call finds outside the process: the clock and the answers of
    the object store and of the warehouse. *)
Record env := mk_env {
  today_utc : Z;                    (* datetime.now(timezone.utc).date() *)
  exists_raises : bool;             (* storage.Client() or blob.exists() raises *)
  download_raises : bool;           (* blob.download_as_bytes() raises *)
  gbq_main : option dataframe;      (* read_gbq(q1); None: it raises *)
  gbq_kpi : option kpiframe;        (* read_gbq(q2); None: it raises *)
  upload_raises : bool              (* pd.to_pickle / blob.upload_from_file raises *)
}.

(** The serving process: its globals, the blob in the bucket, and the
    effects so far. *)
Record process := mk_process {
  mem : globals;
  gcs : option blob_content;
  io : list event
}.

(** How a call ends: it returns, an exception leaves it, or [sys.exit]. *)
Inductive outcome :=
| Returned
| Raised
| Exited (code : Z).

Definition emit (ev : event) (p : process) : process :=
  {| mem := mem p; gcs := gcs p; io := io p ++ [ev] |}.

Definition logging (lvl : level) (msg : string) (p : process) : process :=
  emit (Logged lvl msg) p.

Definition set_df_main (df : dataframe) (p : process) : process :=
  {| mem := {| df_main := Some df; df_kpi := df_kpi (mem p);
               timestamps := timestamps (mem p);
               search_options := search_options (mem p) |};
     gcs := gcs p; io := io p |}.

Definition set_df_kpi (k : kpiframe) (p : process) : process :=
  {| mem := {| df_main := df_main (mem p); df_kpi := Some k;
               timestamps := timestamps (mem p);
               search_options := search_options (mem p) |};
     gcs := gcs p; io := io p |}.

Definition set_timestamps (ts : list datetime) (p : process) : process :=
  {| mem := {| df_main := df_main (mem p); df_kpi := df_kpi (mem p);
               timestamps := ts;
               search_options := search_options (mem p) |};
     gcs := gcs p; io := io p |}.

Definition set_search_options (o : list search_option) (p : process)
  : process :=
  {| mem := {| df_main := df_main (mem p); df_kpi := df_kpi (mem p);
               timestamps := timestamps (mem p);
               search_options := o |};
     gcs := gcs p; io := io p |}.

Definition set_gcs (b : blob_content) (p : process) : process :=
  {| mem := mem p; gcs := Some b; io := io p |}.

(** *** Helpers of the loader *)

(** [sorted(_)] on strings. *)
Fixpoint insert_sorted (s : string) (l : list string) : list string :=
  match l with
  | [] => [s]
  | x :: rest => if String.leb s x then s :: l else x :: insert_sorted s rest
  end.

Definition sorted (l : list string) : list string :=
  fold_right insert_sorted [] l.

(** [sorted(df_main['Object_Name'].astype(str).unique())] *)
Definition unique_names (df : dataframe) : list string :=
  sorted (nodup string_dec (map Object_Name df)).

(** [[{'label': name, 'value': name} for name in unique_names]] *)
Definition make_search_options (df : dataframe) : list search_option :=
  map (fun name => {| label := name; value := name |}) (unique_names df).

(** [len(cached_ts) > 0 and cached_ts[0].date() == today_utc] (line 53) *)
Definition cache_is_fresh (cached_ts : list datetime) (today : Z) : bool :=
  match cached_ts with
  | [] => false
  | t0 :: _ => date t0 =? today
  end.

(** [isinstance(cell, str)] *)
Definition is_str (c : trajectory_cell) : bool :=
  match c with
  | TrajectoryStr _ => true
  | TrajectoryList _ => false
  end.

(** [json.loads(cell)]: a [JSONDecodeError] on a bad string, a [TypeError]
    on a cell that is no string. *)
Definition json_loads (c : trajectory_cell) : option trajectory_cell :=
  match c with
  | TrajectoryStr (Some pts) => Some (TrajectoryList pts)
  | TrajectoryStr None => None
  | TrajectoryList _ => None
  end.

Definition with_trajectory (c : trajectory_cell) (r : row) : row :=
  {| Object_Name := Object_Name r; Owner := Owner r; Orbit := Orbit r;
     Trajectory := c; Avg_Altitude := Avg_Altitude r |}.

(** [df_main['Trajectory'].apply(json.loads)], assigned back to the column;
    [None] when [json.loads] raises on some row. *)
Fixpoint apply_json_loads (df : dataframe) : option dataframe :=
  match df with
  | [] => Some []
  | r :: rest =>
      match json_loads (Trajectory r), apply_json_loads rest with
      | Some c, Some rest' => Some (with_trajectory c r :: rest')
      | _, _ => None
      end
  end.

(** [pd.to_numeric(df_main['Avg_Altitude'], errors='coerce')]: what is not
    a number becomes NaN. *)
Definition to_numeric_coerce (df : dataframe) : dataframe :=
  map (fun r =>
         {| Object_Name := Object_Name r; Owner := Owner r; Orbit := Orbit r;
            Trajectory := Trajectory r;
            Avg_Altitude := match Avg_Altitude r with
                            | Some x => Some x
                            | None => Some nan
                            end |}) df.

(** [[x['timestamp'] for x in df_main['Trajectory'].iloc[0]]] (line 80);
    [None] when the frame has no row or the cell is no list of points. *)
Definition timestamps_raw (df : dataframe) : option (list (option datetime)) :=
  match df with
  | [] => None
  | r :: _ =>
      match Trajectory r with
      | TrajectoryList pts => Some (map pt_timestamp pts)
      | TrajectoryStr _ => None
      end
  end.

(** [pd.to_datetime(timestamps_raw, utc=True)]; [None] when a string is
    rejected. *)
Fixpoint to_datetime (raw : list (option datetime)) : option (list datetime) :=
  match raw with
  | [] => Some []
  | Some t :: rest =>
      match to_datetime rest with
      | Some ts => Some (t :: ts)
      | None => None
      end
  | None :: _ => None
  end.

(** *** [load_data_smart] *)

(** Lines 98-101: the handler of the second [try]. *)
Definition critical_exit (p : process) : outcome * process :=
  (Exited 1, logging CRITICAL "Critical Data Load Failure"%string p).

(** Lines 66-101: the download from the warehouse, the upload of the new
    snapshot and the search options. *)
Definition refresh_from_bigquery (e : env) (p : process) : outcome * process :=
  let p := logging INFO "Downloading fresh data from BigQuery..."%string p in
  let p := emit (ReadGbq TransformedSatellites) p in
  match gbq_main e with
  | None => critical_exit p
  | Some df =>
      let p := set_df_main df p in                               (* line 70 *)
      match df with
      | [] => critical_exit p                                    (* iloc[0] *)
      | first :: _ =>
          match (if is_str (Trajectory first)                    (* line 72 *)
                 then apply_json_loads df else Some df) with
          | None => critical_exit p
          | Some df =>
              let df := to_numeric_coerce df in                  (* line 75 *)
              let p := set_df_main df p in
              let p := emit (ReadGbq KpisView) p in
              match gbq_kpi e with
              | None => critical_exit p
              | Some kpi =>
                  let p := set_df_kpi kpi p in                   (* line 78 *)
                  match timestamps_raw df with                   (* line 80 *)
                  | None => critical_exit p
                  | Some raw =>
                      match to_datetime raw with                 (* line 81 *)
                      | None => critical_exit p
                      | Some ts =>
                          let p := set_timestamps ts p in
                          let p := logging INFO "Saving new data to GCS..."%string p in
                          let data_to_store :=
                            {| c_main := df; c_kpi := kpi;
                               c_timestamps := ts |} in
                          let p := emit BlobUpload p in
                          if upload_raises e then critical_exit p
                          else
                            let p := set_gcs (Pickled data_to_store) p in
                            let p := logging INFO "Upload to GCS complete."%string p in
                            let p :=
                              set_search_options (make_search_options df) p in
                            (Returned, p)
                      end
                  end
              end
          end
      end
  end.

(** Lines 46-64, entered when [blob.exists()] is true: the flag is [true]
    for the [return] of line 60 and [false] when the call falls through to
    the warehouse. *)
Definition read_gcs_cache (e : env) (content : blob_content) (p : process)
  : process * bool :=
  let p := logging INFO "Checking GCS cache: orbital_data_cache.pkl"%string p in
  let p := emit BlobDownload p in
  if download_raises e then
    (logging ERROR "GCS Cache read error"%string p, false)
  else
    match content with
    | Unreadable => (logging ERROR "GCS Cache read error"%string p, false)
    | Pickled cached =>
        let cached_ts := c_timestamps cached in
        if cache_is_fresh cached_ts (today_utc e) then
          let p := logging INFO "GCS Cache is fresh. Loading into RAM."%string p in
          let p := set_df_main (c_main cached) p in
          let p := set_df_kpi (c_kpi cached) p in
          let p := set_timestamps cached_ts p in
          let p := set_search_options (make_search_options (c_main cached)) p in
          (p, true)
        else
          (logging WARNING "GCS Cache is stale. Will refresh from BigQuery..."%string p,
           false)
    | PickledWithoutKpi main cached_ts =>
        if cache_is_fresh cached_ts (today_utc e) then
          let p := logging INFO "GCS Cache is fresh. Loading into RAM."%string p in
          let p := set_df_main main p in                         (* line 55 *)
          (logging ERROR "GCS Cache read error"%string p, false) (* line 56 *)
        else
          (logging WARNING "GCS Cache is stale. Will refresh from BigQuery..."%string p,
           false)
    end.

(** Lines 39-64: the look into the bucket.  [Some o] ends the call with
    [o]; [None] falls through to line 66. *)
Definition check_persisted (e : env) (p : process)
  : option outcome * process :=
  let p := emit BlobExists p in
  if exists_raises e then (Some Raised, p)
  else
    match gcs p with
    | Some content =>
        let (p, returned) := read_gcs_cache e content p in
        if returned then (Some Returned, p) else (None, p)
    | None => (None, p)
    end.

(** Lines 39-101: what a call does once it has found [df_main] to be
    [None]. *)
Definition load_after_check (e : env) (p : process) : outcome * process :=
  let (ended, p) := check_persisted e p in
  match ended with
  | Some o => (o, p)
  | None => refresh_from_bigquery e p
  end.

(** [load_data_smart()] *)
Definition load_data_smart (e : env) (p : process) : outcome * process :=
  match df_main (mem p) with
  | Some _ => (Returned, logging INFO "Data found in RAM. Skipping load."%string p)
  | None => load_after_check e p
  end.

(** *** Observations *)

(** The date an in-memory entry was generated for: the date of its first
    timestamp, the one line 53 compares with today. *)
Definition generated_date (g : globals) : option Z :=
  match timestamps g with
  | [] => None
  | t0 :: _ => Some (date t0)
  end.

Definition is_sweep (ev : event) : bool :=
  match ev with
  | ReadGbq TransformedSatellites => true
  | _ => false
  end.

Definition is_upload (ev : event) : bool :=
  match ev with
  | BlobUpload => true
  | _ => false
  end.

(** How often the catalog was fetched anew from the warehouse, and how
    often an upload to the bucket was started. *)
Definition sweeps (p : process) : nat := length (filter is_sweep (io p)).

Definition uploads (p : process) : nat := length (filter is_upload (io p)).

(** The call is served from a persisted snapshot validated as fresh. *)
Definition persisted_is_fresh (e : env) (p : process) : bool :=
  negb (exists_raises e) && negb (download_raises e)
  && match gcs p with
     | Some (Pickled cached) => cache_is_fresh (c_timestamps cached) (today_utc e)
     | _ => false
     end.

(** The blob exists and reading it fails: the download raises, the bytes
    are no snapshot, or the lookup of a missing key is reached. *)
Definition persisted_read_fails (e : env) (p : process) : bool :=
  negb (exists_raises e)
  && match gcs p with
     | Some Unreadable => true
     | Some (Pickled _) => download_raises e
     | Some (PickledWithoutKpi _ ts) =>
         download_raises e || cache_is_fresh ts (today_utc e)
     | None => false
     end.

(** What lines 70-81 make of the warehouse's answers when no step raises:
    the frame with its trajectories decoded and its altitudes numeric, the
    KPI frame, and the timestamps of the first row's trajectory. *)
Definition warehouse_snapshot (e : env) : option cached_data :=
  match gbq_main e with
  | None | Some [] => None
  | Some ((first :: _) as df) =>
      match (if is_str (Trajectory first)
             then apply_json_loads df else Some df) with
      | None => None
      | Some df' =>
          match gbq_kpi e, timestamps_raw (to_numeric_coerce df') with
          | Some kpi, Some raw =>
              match to_datetime raw with
              | Some ts =>
                  Some {| c_main := to_numeric_coerce df'; c_kpi := kpi;
                          c_timestamps := ts |}
              | None => None
              end
          | _, _ => None
          end
      end
  end.

(** The globals once a snapshot is fully loaded. *)
Definition globals_of (d : cached_data) : globals :=
  {| df_main := Some (c_main d); df_kpi := Some (c_kpi d);
     timestamps := c_timestamps d;
     search_options := make_search_options (c_main d) |}.

(** *** Calls one after another, and calls that overlap *)

(** Calls served one after another by one process; [sys.exit] ends it. *)
Fixpoint serve (calls : list env) (p : process) : process :=
  match calls with
  | [] => p
  | e :: rest =>
      match load_data_smart e p with
      | (Exited _, p') => p'
      | (_, p') => serve rest p'
      end
  end.

(** A call in flight.  The test of line 35, the look into the bucket
    (lines 39-64) and the download from the warehouse (lines 66-101) are
    three steps: the last two wait on the network, and other calls may run
    in between. *)
Inductive thread :=
| AtEntry
| PastCheck
| AtRefresh
| Finished (o : outcome).

Definition step_thread (e : env) (t : thread) (p : process)
  : thread * process :=
  match t with
  | AtEntry =>
      match df_main (mem p) with
      | Some _ =>
          (Finished Returned,
           logging INFO "Data found in RAM. Skipping load."%string p)
      | None => (PastCheck, p)
      end
  | PastCheck =>
      let (ended, p') := check_persisted e p in
      match ended with
      | Some o => (Finished o, p')
      | None => (AtRefresh, p')
      end
  | AtRefresh =>
      let (o, p') := refresh_from_bigquery e p in (Finished o, p')
  | Finished o => (Finished o, p)
  end.

Fixpoint update_nth {A : Type} (i : nat) (x : A) (l : list A) : list A :=
  match l, i with
  | [], _ => []
  | _ :: rest, O => x :: rest
  | y :: rest, S i' => y :: update_nth i' x rest
  end.

(** The calls in flight take steps in the order the schedule names them. *)
Fixpoint run (schedule : list nat) (e : env) (threads : list thread)
  (p : process) : list thread * process :=
  match schedule with
  | [] => (threads, p)
  | i :: rest =>
      match nth_error threads i with
      | Some t =>
          let (t', p') := step_thread e t p in
          run rest e (update_nth i t' threads) p'
      | None => run rest e threads p
      end
  end.

End Dashboard.

Import Dashboard.

(** ** main.py, lines 106-114 and 272-338: the warm-up route and the map *)

Module Views.

(** How a request handler ends: it answers, [SystemExit] passes through it,
    or an exception leaves it. *)
Inductive answer (A : Type) :=
| Answers (a : A)
| Exits (code : Z)
| Fails.

Arguments Answers {A} a.
Arguments Exits {A} code.
Arguments Fails {A}.

(** [warmup()].  [except Exception] catches what [load_data_smart] raises;
    [SystemExit] is no [Exception] and passes through. *)
Definition warmup (e : env) (p : process) : answer (string * Z) * process :=
  let p := logging INFO "Warmup request received."%string p in
  match load_data_smart e p with
  | (Returned, p) => (Answers ("Warmup successful"%string, 200), p)
  | (Raised, p) =>
      (Answers ("Warmup failed"%string, 500),
       logging ERROR "Warmup failed"%string p)
  | (Exited code, p) => (Exits code, p)
  end.

(** [l[i]] in Python: a negative index counts from the end; [None] is an
    [IndexError]. *)
Definition py_index {A : Type} (l : list A) (i : Z) : option A :=
  if 0 <=? i then nth_error l (Z.to_nat i)
  else if 0 <=? Z.of_nat (length l) + i
       then nth_error l (Z.to_nat (Z.of_nat (length l) + i))
       else None.

(** [ts.strftime("%H:%M UTC")] *)
Definition digit (d : Z) : ascii := ascii_of_nat (48 + Z.to_nat d).

Definition two_digits (n : Z) : string :=
  String (digit (n / 10)) (String (digit (n mod 10)) EmptyString).

Definition strftime_HM_UTC (ts : datetime) : string :=
  (two_digits (hour ts) ++ ":" ++ two_digits (minute ts) ++ " UTC")%string.

(** The six lists [update_map] fills side by side. *)
Record markers := mk_markers {
  lats : list float;
  lons : list float;
  colors : list string;
  sizes : list Z;
  opacities : list float;
  texts : list string
}.

Definition no_markers : markers :=
  {| lats := []; lons := []; colors := []; sizes := []; opacities := [];
     texts := [] |}.

(** The truth value of [search_name]: [None] and the empty string are
    false. *)
Definition truthy (search_name : option string) : bool :=
  match search_name with
  | Some (String _ _) => true
  | _ => false
  end.

(** [row.Object_Name != search_name] *)
Definition differs (name : string) (search_name : option string) : bool :=
  match search_name with
  | Some s => negb (String.eqb name s)
  | None => true
  end.

(** [row.Trajectory[time_index]] followed by [pt['lat']], [pt['lon']]:
    [None] when one of them raises (an index past the end, or a cell that
    is still a string, whose elements have no keys). *)
Definition point_at (r : row) (time_index : Z) : option traj_point :=
  match Trajectory r with
  | TrajectoryList pts => py_index pts time_index
  | TrajectoryStr _ => None
  end.

(** Lines 301-304. *)
Definition orbit_color (orbit : string) : string :=
  if String.eqb orbit "LEO" then "#10b981"%string
  else if String.eqb orbit "MEO" then "#3b82f6"%string
  else if String.eqb orbit "GEO" then "#ef4444"%string
  else "#eab308"%string.

(** Lines 286-310: one turn of the loop over the rows, on a frame that has
    the columns and on points that have both keys, where the appends of a
    turn are all reached or none is ([plot_raw_row] below follows the
    appends one by one). *)
#[warnings="-inexact-float"]
Definition plot_row (time_index : Z) (search_name : option string)
  (m : markers) (r : row) : markers :=
  if truthy search_name && differs (Object_Name r) search_name then m
  else
    match point_at r time_index with
    | None => m
    | Some pt =>
        if truthy search_name then
          {| lats := lats m ++ [pt_lat pt];
             lons := lons m ++ [pt_lon pt];
             colors := colors m ++ ["#FFD700"%string];
             sizes := sizes m ++ [20];
             opacities := opacities m ++ [1%float];
             texts := texts m ++ [("🎯 " ++ Object_Name r)%string] |}
        else
          {| lats := lats m ++ [pt_lat pt];
             lons := lons m ++ [pt_lon pt];
             colors := colors m ++ [orbit_color (Orbit r)];
             sizes := sizes m ++ [2];
             opacities := opacities m ++ [0.7%float];
             texts := texts m
                      ++ [(Object_Name r ++ " (" ++ Owner r ++ ")")%string] |}
    end.

(** Line 275: the loader is called only when [df_main] is [None]. *)
Definition ensure_loaded (e : env) (p : process) : outcome * process :=
  match df_main (mem p) with
  | Some _ => (Returned, p)
  | None => load_data_smart e p
  end.

(** Line 277: an index past the timestamps counts as 0. *)
Definition effective_index (ts : list datetime) (time_index : Z) : Z :=
  if Z.of_nat (length ts) <=? time_index then 0 else time_index.

(** [update_map(time_index, search_name)]: the markers of the figure and
    the time shown in the sidebar.  [now_index] is what
    [get_current_time_index()] answers if it is asked (line 273); it reads
    the clock and is left open here, [None] standing for an exception. *)
Definition update_map (now_index : option Z) (e : env)
  (time_index : option Z) (search_name : option string) (p : process)
  : answer (markers * string) * process :=
  match (match time_index with Some i => Some i | None => now_index end) with
  | None => (Fails, p)
  | Some time_index =>
      let (loaded, p) := ensure_loaded e p in                    (* line 275 *)
      match loaded with
      | Raised => (Fails, p)
      | Exited code => (Exits code, p)
      | Returned =>
          let time_index :=                                      (* line 277 *)
            effective_index (timestamps (mem p)) time_index in
          match py_index (timestamps (mem p)) time_index with    (* line 280 *)
          | None => (Fails, p)
          | Some ts =>
              let time_str := strftime_HM_UTC ts in
              match df_main (mem p) with
              | None => (Fails, p)             (* None has no itertuples *)
              | Some df =>
                  (Answers (fold_left (plot_row time_index search_name)
                                      df no_markers,
                            time_str), p)
              end
          end
      end
  end.

(** The rows the loop plots: those that pass the search and whose
    trajectory has a point at the index. *)
Definition plotted (time_index : Z) (search_name : option string) (r : row)
  : bool :=
  negb (truthy search_name && differs (Object_Name r) search_name)
  && match point_at r time_index with
     | Some _ => true
     | None => false
     end.

(** What the loop appends for a row it plots. *)
Definition marker_lat (time_index : Z) (r : row) : float :=
  match point_at r time_index with
  | Some pt => pt_lat pt
  | None => nan
  end.

Definition marker_lon (time_index : Z) (r : row) : float :=
  match point_at r time_index with
  | Some pt => pt_lon pt
  | None => nan
  end.

Definition marker_color (search_name : option string) (r : row) : string :=
  if truthy search_name then "#FFD700"%string else orbit_color (Orbit r).

Definition marker_size (search_name : option string) : Z :=
  if truthy search_name then 20 else 2.

#[warnings="-inexact-float"]
Definition marker_opacity (search_name : option string) : float :=
  if truthy search_name then 1%float else 0.7%float.

Definition marker_text (search_name : option string) (r : row) : string :=
  if truthy search_name then ("🎯 " ++ Object_Name r)%string
  else (Object_Name r ++ " (" ++ Owner r ++ ")")%string.

(** *** The states a serving process goes through *)

(** The process starts with the initial globals and serves calls of
    [load_data_smart]; [sys.exit] ends it. *)
Inductive reachable : process -> Prop :=
| reachable_start (p : process) :
    mem p = initial_globals -> reachable p
| reachable_call (e : env) (p p' : process) (o : outcome) :
    reachable p ->
    load_data_smart e p = (o, p') ->
    (forall code, o <> Exited code) ->
    reachable p'.

End Views.

Import Views.

(** ** main.py, lines 285-310: the loop of [update_map], append by append *)

Module MapLoop.

(** A dict of a trajectory as the loop meets it: its ['lat'] and ['lon']
    entries, [None] for a key that is missing. *)
Record raw_point := mk_raw_point {
  raw_lat : option float;
  raw_lon : option float
}.

(** A row of [df_main.itertuples()] as the loop meets it: the name, the
    [Owner] and [Orbit] attributes ([None]: the frame has no such column),
    and the [Trajectory] cell ([None]: a cell whose elements are no dicts,
    such as a string). *)
Record raw_row := mk_raw_row {
  raw_Object_Name : string;
  raw_Owner : option string;
  raw_Orbit : option string;
  raw_Trajectory : option (list raw_point)
}.

Definition append_lat (x : float) (m : markers) : markers :=
  {| lats := lats m ++ [x]; lons := lons m; colors := colors m;
     sizes := sizes m; opacities := opacities m; texts := texts m |}.

Definition append_lon (x : float) (m : markers) : markers :=
  {| lats := lats m; lons := lons m ++ [x]; colors := colors m;
     sizes := sizes m; opacities := opacities m; texts := texts m |}.

Definition append_color (c : string) (m : markers) : markers :=
  {| lats := lats m; lons := lons m; colors := colors m ++ [c];
     sizes := sizes m; opacities := opacities m; texts := texts m |}.

Definition append_size (s : Z) (m : markers) : markers :=
  {| lats := lats m; lons := lons m; colors := colors m;
     sizes := sizes m ++ [s]; opacities := opacities m; texts := texts m |}.

Definition append_opacity (o : float) (m : markers) : markers :=
  {| lats := lats m; lons := lons m; colors := colors m;
     sizes := sizes m; opacities := opacities m ++ [o]; texts := texts m |}.

Definition append_text (t : string) (m : markers) : markers :=
  {| lats := lats m; lons := lons m; colors := colors m;
     sizes := sizes m; opacities := opacities m; texts := texts m ++ [t] |}.

(** One turn of the loop.  Each append happens when it is reached; what
    raises inside the [try] (an index past the end, a missing key, a
    missing attribute) ends the turn with the lists as they are then. *)
#[warnings="-inexact-float"]
Definition plot_raw_row (time_index : Z) (search_name : option string)
  (m : markers) (r : raw_row) : markers :=
  if truthy search_name && differs (raw_Object_Name r) search_name then m
  else
    match raw_Trajectory r with
    | None => m
    | Some pts =>
        match py_index pts time_index with                       (* line 290 *)
        | None => m
        | Some pt =>
            match raw_lat pt with                                (* line 291 *)
            | None => m
            | Some la =>
                let m := append_lat la m in
                match raw_lon pt with                            (* line 292 *)
                | None => m
                | Some lo =>
                    let m := append_lon lo m in
                    if truthy search_name then
                      let m := append_color "#FFD700"%string m in
                      let m := append_size 20 m in
                      let m := append_opacity 1%float m in
                      append_text ("🎯 " ++ raw_Object_Name r)%string m
                    else
                      match raw_Orbit r with                     (* line 300 *)
                      | None => m
                      | Some orbit =>
                          let m := append_color (orbit_color orbit) m in
                          let m := append_size 2 m in
                          let m := append_opacity 0.7%float m in
                          match raw_Owner r with                 (* line 308 *)
                          | None => m
                          | Some owner =>
                              append_text
                                (raw_Object_Name r ++ " (" ++ owner ++ ")")%string
                                m
                          end
                      end
                end
            end
        end
    end.

(** A row of a frame that has the columns, with points that have both
    keys, as the loop meets it. *)
Definition raw_of_point (pt : traj_point) : raw_point :=
  {| raw_lat := Some (pt_lat pt); raw_lon := Some (pt_lon pt) |}.

Definition raw_of_row (r : row) : raw_row :=
  {| raw_Object_Name := Object_Name r;
     raw_Owner := Some (Owner r);
     raw_Orbit := Some (Orbit r);
     raw_Trajectory := match Trajectory r with
                       | TrajectoryList pts => Some (map raw_of_point pts)
                       | TrajectoryStr _ => None
                       end |}.

(** The lists are in the order of the appends: none is longer than the
    one appended to before it, the three appended to without a step that
    can raise in between are equally long, and the first has at most [n]
    entries. *)
Definition lengths_in_append_order (m : markers) (n : nat) : Prop :=
  (length (texts m) <= length (opacities m))%nat
  /\ length (opacities m) = length (sizes m)
  /\ length (sizes m) = length (colors m)
  /\ (length (colors m) <= length (lons m))%nat
  /\ (length (lons m) <= length (lats m))%nat
  /\ (length (lats m) <= n)%nat.

End MapLoop.

Import MapLoop.

(** ** From the paths of [get_position] to the rows of [df_main] *)

Module Catalog.

Section Built.

Variables sat_data satellite : Type.
Variable from_omm : sat_data -> option satellite.
Variable geographic_position_of : satellite -> Q -> geographic.
Variable round2 : float -> float.
Variable np_mean : list float -> float.
Variable now : datetime.

(** What [pd.to_datetime(_, utc=True)] makes of the string
    [str(t_obj.utc_datetime())] stored for the instant [t_obj]. *)
Variable utc_datetime : Q -> datetime.

(** A dict of [path] as the dashboard reads it back: the same ['lat'] and
    ['lon'], and the timestamp string parsed. *)
Definition stored_point (p : point) : traj_point :=
  {| pt_timestamp := Some (utc_datetime (timestamp p));
     pt_lat := lat p; pt_lon := lon p |}.

(** The dicts of the path of an accepted element set, read back: one per
    grid instant, built from the sample at that instant. *)
Definition track (sat : satellite) : list traj_point :=
  map (fun t => stored_point (point_of round2 t (geographic_position_of sat t)))
      (timeVector now).

(** The [Trajectory] cell the warehouse answers with for a list of dicts:
    its JSON text, or the list itself. *)
Definition stored_cell (as_text : bool) (pts : list traj_point)
  : trajectory_cell :=
  if as_text then TrajectoryStr (Some pts) else TrajectoryList pts.

(** The row's trajectory is a path that [get_position] returned for the
    element set. *)
Definition built_by_get_position (as_text : bool) (r : row) (sd : sat_data)
  : Prop :=
  exists path m,
    get_position from_omm geographic_position_of round2 np_mean now sd
    = Some (path, m)
    /\ Trajectory r = stored_cell as_text (map stored_point path).

End Built.

Arguments stored_point utc_datetime p : assert.
Arguments stored_cell as_text pts : assert.
Arguments track {satellite} geographic_position_of round2 now utc_datetime sat.
Arguments built_by_get_position {sat_data satellite} from_omm
  geographic_position_of round2 np_mean now utc_datetime as_text r sd.

End Catalog.

Import Catalog.

(** ** ingestion/main.py and ingestion/pubsub_utils.py *)

Module Ingestion.

(** *** [load_satellites_data] (main.py, lines 14-41) *)

Definition urls : list string :=
  [ "https://celestrak.com/NORAD/elements/gp.php?GROUP=active&FORMAT=csv";
    "https://celestrak.org/NORAD/elements/gp.php?GROUP=cosmos-1408-debris&FORMAT=csv";
    "https://celestrak.org/NORAD/elements/gp.php?GROUP=fengyun-1c-debris&FORMAT=csv";
    "https://celestrak.org/NORAD/elements/gp.php?GROUP=iridium-33-debris&FORMAT=csv";
    "https://celestrak.org/NORAD/elements/gp.php?GROUP=cosmos-2251-debris&FORMAT=csv"
  ]%string.

Definition labels : list string :=
  [ "Active"; "Debris (Cosmos 1408)"; "Debris (Fengyun 1C)";
    "Debris (Iridium 33)"; "Debris (Cosmos 2251)" ]%string.

(** What the generator has done when its consumer has taken all it gives:
    the chunks yielded, the URLs asked for, and whether it ended normally
    ([false]: an exception left it). *)
Record generated (chunk : Type) := mk_generated {
  yielded : list chunk;
  fetched : list string;
  completed : bool
}.

Arguments mk_generated {chunk} yielded fetched completed.
Arguments yielded {chunk} g.
Arguments fetched {chunk} g.
Arguments completed {chunk} g.

Section Feeds.

(** One parsed row of a feed. *)
Variable record : Type.

(** Iterating [pd.read_csv(url, chunksize = 100, dtype = dtypes)]: the
    chunks it gives, and whether the iteration then ends normally ([true])
    or with an exception ([false]). *)
Variable read_csv : string -> list (list record) * bool.

(** [chunk['TYPE'] = label]: every row of the chunk gets the label. *)
Definition set_TYPE (label : string) (chunk : list record)
  : list (record * string) :=
  map (fun r => (r, label)) chunk.

(** The loop over [enumerate(urls)], from position [index] on.
    [labels[index]] is looked up once per chunk, so a missing label is an
    [IndexError] only when the feed has a chunk. *)
Fixpoint feeds_from (index : nat) (us : list string)
  : generated (list (record * string)) :=
  match us with
  | [] => mk_generated [] [] true
  | url :: rest =>
      let (chunks, ended) := read_csv url in
      match chunks, nth_error labels index with
      | _ :: _, None => mk_generated [] [url] false
      | [], None =>
          if ended then
            let g := feeds_from (S index) rest in
            mk_generated (yielded g) (url :: fetched g) (completed g)
          else mk_generated [] [url] false
      | _, Some label =>
          let out := map (set_TYPE label) chunks in
          if ended then
            let g := feeds_from (S index) rest in
            mk_generated (out ++ yielded g) (url :: fetched g) (completed g)
          else mk_generated out [url] false
      end
  end.

Definition load_satellites_data : generated (list (record * string)) :=
  feeds_from 0 urls.

(** *** [publish_message] (pubsub_utils.py, lines 11-30) *)

Inductive effect :=
| LogInfo (msg : string)
| LogException (msg : string)
| Publish (topic_path : string) (data : string).

(** What the message service does: whether [PublisherClient()] raises, and
    the message id [future.result()] gives ([None]: [publish] or
    [result] raises). *)
Record pubsub := mk_pubsub {
  client_raises : bool;
  publish_result : option string
}.

(** [publisher.topic_path(project_id, topic_name)] *)
Definition topic_path (project_id topic_name : string) : string :=
  ("projects/" ++ project_id ++ "/topics/" ++ topic_name)%string.

(** The value returned ([None] is Python's [None], returned when the
    handler of line 29 has run) and the effects, in order. *)
Definition publish_message (project_id topic_name : string) (ps : pubsub)
  : option string * list effect :=
  if client_raises ps then
    (None, [LogException "failed to publish message"%string])
  else
    let data := "Ingestion logic completed"%string in
    let call := Publish (topic_path project_id topic_name) data in
    match publish_result ps with
    | None => (None, [call; LogException "failed to publish message"%string])
    | Some message_id =>
        (Some message_id,
         [call;
          LogInfo ("Message published successfully ID: " ++ message_id)%string])
    end.

(** *** [main] (main.py, lines 43-55) *)

(** [dlt.pipeline(...)] and [pipeline.run(load_satellites_data)]: whether
    creating the pipeline raises, and whether the run raises once the
    source has been read to its end. *)
Record dlt := mk_dlt {
  pipeline_raises : bool;
  run_raises : bool
}.

(** The answer of the HTTP function, and what it logs and publishes.  The
    run takes all the generator gives, and raises when the generator
    does. *)
Definition main (project_id topic_name : string) (d : dlt) (ps : pubsub)
  : (string * Z) * list effect :=
  let failed :=
    (("Failed"%string, 500), [LogException "Ingestion pipeline crashed"%string]) in
  if pipeline_raises d then failed
  else if negb (completed load_satellites_data) then failed
  else if run_raises d then failed
  else
    let log := LogInfo "Ingestion pipeline finished successfully."%string in
    let (_, effects) := publish_message project_id topic_name ps in
    (("Success"%string, 200), log :: effects).

End Feeds.

Arguments feeds_from {record} read_csv index us.
Arguments load_satellites_data {record} read_csv.
Arguments main {record} read_csv project_id topic_name d ps.
Arguments set_TYPE {record} label chunk.

(** The chunks of the given feeds, each labelled with its feed's label, in
    the order of the feeds. *)
Definition labelled_chunks {record : Type}
  (read_csv : string -> list (list record) * bool)
  (feeds : list (string * string)) : list (list (record * string)) :=
  flat_map (fun '(url, label) => map (set_TYPE label) (fst (read_csv url)))
           feeds.

(** Whether an effect is a call of [publisher.publish]. *)
Definition is_publish (x : effect) : bool :=
  match x with
  | Publish _ _ => true
  | _ => false
  end.

End Ingestion.

Import Ingestion.

(** ** Concrete inputs

    Small inputs on which the definitions above are run. *)

Module Demo.

(** A clock reading at 12:30 UTC on day 739000, and the day before. *)
Definition today : Z := 739000.

Definition yesterday : Z := 738999.

Definition demo_now : datetime := mk_datetime today 12 30 0 0.

(** Four element sets: one that propagates at every instant, one whose
    propagation fails at the first grid instant only, one whose propagation
    fails at every instant, and one that [from_omm] rejects. *)
Inductive demo_sat := Healthy | FailsAtMidnight | Decayed | Malformed.

Definition demo_from_omm (sd : demo_sat) : option demo_sat :=
  match sd with
  | Malformed => None
  | _ => Some sd
  end.

Definition demo_fix : geographic :=
  {| latitude_degrees := 51.5; longitude_degrees := 0.25;
     elevation_km := 400 |}.

Definition demo_nan : geographic :=
  {| latitude_degrees := nan; longitude_degrees := nan; elevation_km := nan |}.

Definition demo_geographic_position_of (sat : demo_sat) (t : Q) : geographic :=
  match sat with
  | Healthy => demo_fix
  | FailsAtMidnight =>
      if Qeq_bool t (start_time demo_now) then demo_nan else demo_fix
  | Decayed | Malformed => demo_nan
  end.

(** [round(x, 2)] on the coordinates above: 51.5, 0.25 and NaN are returned
    as they are. *)
Definition demo_round2 (x : float) : float := x.

Definition demo_get_position : demo_sat -> option (list point * float) :=
  get_position demo_from_omm demo_geographic_position_of demo_round2
               pairwise_mean demo_now.

(** The path of the first object: the same fix at every grid instant. *)
Definition healthy_path : list point :=
  map (fun t => mk_point t 51.5 0.25) (timeVector demo_now).

(** The elevations of the successful samples of an object. *)
Definition successful_elevations (sat : demo_sat) : list float :=
  map elevation_km
      (filter sample_ok
              (map (demo_geographic_position_of sat) (timeVector demo_now))).

(** A one-object catalog whose trajectory starts on day [d]. *)
Definition demo_points (d : Z) : list traj_point :=
  [ mk_traj_point (Some (mk_datetime d 0 0 0 0)) 51.5 0.25;
    mk_traj_point (Some (mk_datetime d 0 10 0 0)) 51.25 2.5 ].

Definition demo_frame (d : Z) : dataframe :=
  [ mk_row "ISS (ZARYA)" "ISS" "LEO" (TrajectoryList (demo_points d))
           (Some 420.5%float) ].

Definition demo_kpi : kpiframe := [ mk_kpi_row 1 1 0 0 ].

Definition demo_snapshot (d : Z) : cached_data :=
  {| c_main := demo_frame d; c_kpi := demo_kpi;
     c_timestamps := [ mk_datetime d 0 0 0 0; mk_datetime d 0 10 0 0 ] |}.

(** A process that has just started, with an empty bucket. *)
Definition fresh_process : process :=
  {| mem := initial_globals; gcs := None; io := [] |}.

(** A process whose in-memory entry was loaded the day before. *)
Definition stale_process : process :=
  {| mem := globals_of (demo_snapshot yesterday);
     gcs := Some (Pickled (demo_snapshot yesterday)); io := [] |}.

(** A process that has just started and finds today's snapshot, or an
    unreadable blob, in the bucket. *)
Definition process_with_fresh_blob : process :=
  {| mem := initial_globals; gcs := Some (Pickled (demo_snapshot today));
     io := [] |}.

Definition process_with_bad_blob : process :=
  {| mem := initial_globals; gcs := Some Unreadable; io := [] |}.

(** Everything outside the process works. *)
Definition env_ok : env :=
  {| today_utc := today; exists_raises := false; download_raises := false;
     gbq_main := Some (demo_frame today); gbq_kpi := Some demo_kpi;
     upload_raises := false |}.

(** The warehouse answers, the upload to the bucket raises. *)
Definition env_upload_fails : env :=
  {| today_utc := today; exists_raises := false; download_raises := false;
     gbq_main := Some (demo_frame today); gbq_kpi := Some demo_kpi;
     upload_raises := true |}.

End Demo.

Import Demo.

(** ** More concrete inputs *)

Module DemoViews.

(** A catalog whose first object has an empty trajectory. *)
Definition frame_with_empty_track : dataframe :=
  [ mk_row "ISS (ZARYA)" "ISS" "LEO" (TrajectoryList []) (Some 420.5%float);
    mk_row "NOAA 19" "US" "LEO" (TrajectoryList (demo_points today))
           (Some 850%float) ].

Definition env_empty_track : env :=
  {| today_utc := today; exists_raises := false; download_raises := false;
     gbq_main := Some frame_with_empty_track; gbq_kpi := Some demo_kpi;
     upload_raises := false |}.

(** The look into the bucket raises. *)
Definition env_bucket_down : env :=
  {| today_utc := today; exists_raises := true; download_raises := false;
     gbq_main := Some (demo_frame today); gbq_kpi := Some demo_kpi;
     upload_raises := false |}.

(** A process that has served one call today. *)
Definition loaded_process : process :=
  snd (load_data_smart env_ok fresh_process).

(** The markers of the one-object catalog at index 1, without a search and
    with a search for the object. *)
#[warnings="-inexact-float"]
Definition markers_at_1 : markers :=
  {| lats := [51.25%float]; lons := [2.5%float];
     colors := ["#10b981"%string]; sizes := [2];
     opacities := [0.7%float];
     texts := ["ISS (ZARYA) (ISS)"%string] |}.

Definition markers_of_search : markers :=
  {| lats := [51.25%float]; lons := [2.5%float];
     colors := ["#FFD700"%string]; sizes := [20];
     opacities := [1%float];
     texts := ["🎯 ISS (ZARYA)"%string] |}.

(** Feeds of numbered rows: each gives two chunks and ends normally, except
    that in [reader_third_fails] the third feed breaks after its first
    chunk. *)
Definition reader_ok (url : string) : list (list nat) * bool :=
  ([[1; 2]; [3]]%nat, true).

Definition reader_third_fails (url : string) : list (list nat) * bool :=
  if String.eqb url (nth 2 urls EmptyString)
  then ([[1; 2]]%nat, false)
  else ([[1; 2]; [3]]%nat, true).

Definition pubsub_ok : pubsub :=
  {| client_raises := false; publish_result := Some "4711"%string |}.

Definition pubsub_down : pubsub :=
  {| client_raises := true; publish_result := None |}.

Definition dlt_ok : dlt := {| pipeline_raises := false; run_raises := false |}.

(** A catalog whose second object lacks the sample of the first instant:
    its trajectory starts with the point of 00:10. *)
Definition misaligned_frame : dataframe :=
  [ mk_row "ISS (ZARYA)" "ISS" "LEO" (TrajectoryList (demo_points today))
           (Some 420.5%float);
    mk_row "NOAA 19" "US" "LEO"
           (TrajectoryList
              [ mk_traj_point (Some (mk_datetime today 0 10 0 0)) (-10) 30 ])
           (Some 850%float) ].

Definition env_misaligned : env :=
  {| today_utc := today; exists_raises := false; download_raises := false;
     gbq_main := Some misaligned_frame; gbq_kpi := Some demo_kpi;
     upload_raises := false |}.

#[warnings="-inexact-float"]
Definition markers_misaligned : markers :=
  {| lats := [51.5%float; (-10)%float]; lons := [0.25%float; 30%float];
     colors := ["#10b981"%string; "#10b981"%string]; sizes := [2; 2];
     opacities := [0.7%float; 0.7%float];
     texts := ["ISS (ZARYA) (ISS)"%string; "NOAA 19 (US)"%string] |}.

(** The bucket holds a dict dated today that lacks its ['kpi'] entry, and
    the warehouse does not answer. *)
Definition process_with_partial_blob : process :=
  {| mem := initial_globals;
     gcs := Some (PickledWithoutKpi (demo_frame today)
                    [ mk_datetime today 0 0 0 0; mk_datetime today 0 10 0 0 ]);
     io := [] |}.

Definition env_warehouse_down : env :=
  {| today_utc := today; exists_raises := false; download_raises := false;
     gbq_main := None; gbq_kpi := None; upload_raises := false |}.

(** The datetime of an instant, to the microsecond. *)
Definition demo_utc_datetime (t : Q) : datetime :=
  let day := Qfloor t in
  let us := Qfloor ((t - inject_Z day) * 86400000000) in
  {| date := day;
     hour := us / 3600000000;
     minute := (us / 60000000) mod 60;
     second := (us / 1000000) mod 60;
     microsecond := us mod 1000000 |}.

(** A catalog of two objects whose trajectories [get_position] built, as
    the warehouse answers with it: the cells hold JSON text. *)
Definition built_row (name : string) (sd : demo_sat) : row :=
  mk_row name "US" "LEO"
         (stored_cell true
            (map (stored_point demo_utc_datetime)
                 (match demo_get_position sd with
                  | Some (path, _) => path
                  | None => []
                  end)))
         (option_map snd (demo_get_position sd)).

Definition built_frame : dataframe :=
  [ built_row "ALPHA" Healthy; built_row "BETA" FailsAtMidnight ].

Definition env_built : env :=
  {| today_utc := today; exists_raises := false; download_raises := false;
     gbq_main := Some built_frame; gbq_kpi := Some demo_kpi;
     upload_raises := false |}.

(** A point without its ['lon'] entry, in a one-row frame. *)
Definition rows_without_lon : list raw_row :=
  [ mk_raw_row "ISS (ZARYA)" (Some "ISS"%string) (Some "LEO"%string)
               (Some [ mk_raw_point (Some 51.5%float) None ]) ].

End DemoViews.

Import DemoViews.

(** ** Facts about the time grid *)

Lemma nth_map_in {A B : Type} (f : A -> B) (l : list A) (i : nat) (da : A) (db : B) :
  (i < length l)%nat -> nth i (map f l) db = f (nth i l da).
Proof.
  revert i. induction l as [|a l IH]; intros [|i] Hi; simpl in *; try lia.
  - reflexivity.
  - apply IH. lia.
Qed.

Lemma arange_length (start stop step : Z) :
  length (arange start stop step)
  = Z.to_nat ((stop - start + step - 1) / step).
Proof.
  unfold arange. now rewrite length_map, length_seq.
Qed.

Lemma arange_nth (start stop step : Z) (i : nat) :
  (i < length (arange start stop step))%nat ->
  nth i (arange start stop step) 0 = start + Z.of_nat i * step.
Proof.
  intros Hi. rewrite arange_length in Hi. unfold arange.
  rewrite (nth_map_in _ _ _ 0%nat) by now rewrite length_seq.
  rewrite seq_nth by assumption. reflexivity.
Qed.

Example minutes_first_and_last :
  firstn 3 minutes = [0; 10; 20] /\ last minutes 0 = 1430.
Proof. split; reflexivity. Qed.

Lemma minutes_length : length minutes = 144%nat.
Proof. reflexivity. Qed.

Lemma minutes_nth (i : nat) :
  (i < 144)%nat -> nth i minutes 0 = 10 * Z.of_nat i.
Proof.
  intros Hi. unfold minutes. rewrite arange_nth by exact Hi. lia.
Qed.

Lemma timeVector_length (now : datetime) : length (timeVector now) = 144%nat.
Proof. unfold timeVector. now rewrite length_map. Qed.

Lemma timeVector_nth (now : datetime) (i : nat) :
  (i < 144)%nat ->
  nth i (timeVector now) 0%Q
  = (start_time now + inject_Z (10 * Z.of_nat i) / 1440)%Q.
Proof.
  intros Hi. unfold timeVector.
  rewrite (nth_map_in _ _ _ 0) by exact Hi.
  rewrite minutes_nth by exact Hi. reflexivity.
Qed.

Lemma start_time_is_day_start (now : datetime) :
  (start_time now == inject_Z (date now))%Q.
Proof.
  unfold start_time, midnight, from_datetime, replace_midnight; simpl.
  unfold Qeq, Qplus, Qdiv, Qmult, Qinv, inject_Z; simpl. lia.
Qed.

Lemma timeVector_same_date (now now' : datetime) :
  date now' = date now -> timeVector now' = timeVector now.
Proof.
  intros Hd. unfold timeVector, start_time, midnight, replace_midnight.
  now rewrite Hd.
Qed.

Lemma timeVector_step (now : datetime) (i : nat) :
  (S i < 144)%nat ->
  (nth (S i) (timeVector now) 0 - nth i (timeVector now) 0 == 10 / 1440)%Q.
Proof.
  intros Hi. rewrite !timeVector_nth by lia.
  rewrite Nat2Z.inj_succ.
  replace (10 * Z.succ (Z.of_nat i)) with (10 * Z.of_nat i + 10) by lia.
  rewrite inject_Z_plus. field.
Qed.

(** C6. The time grid has exactly 144 instants; it starts at the UTC
    midnight of the day of [now] (the [now] with its time of day set to
    zero, which is the start of day number [date now]); consecutive
    instants are 10 minutes (10/1440 of a day) apart, hence strictly
    increasing and equally spaced; and it depends on [now] through its
    calendar date only: two readings of the clock on the same UTC day give
    the identical grid. *)
Theorem timeVector_is_daily_grid (now : datetime) :
  length (timeVector now) = 144%nat
  /\ midnight now = mk_datetime (date now) 0 0 0 0
  /\ (nth 0 (timeVector now) 0 == from_datetime (midnight now))%Q
  /\ (nth 0 (timeVector now) 0 == inject_Z (date now))%Q
  /\ (forall i, (S i < 144)%nat ->
        (nth (S i) (timeVector now) 0 - nth i (timeVector now) 0
           == 10 / 1440)%Q
        /\ (nth i (timeVector now) 0 < nth (S i) (timeVector now) 0)%Q)
  /\ (forall now', date now' = date now -> timeVector now' = timeVector now).
Proof.
  split; [apply timeVector_length|].
  split; [reflexivity|].
  assert (H0 : (nth 0 (timeVector now) 0 == start_time now)%Q).
  { rewrite timeVector_nth by lia. simpl. field. }
  split; [exact H0|].
  split; [rewrite H0; apply start_time_is_day_start|].
  split; [|intros now'; apply timeVector_same_date].
  intros i Hi. pose proof (timeVector_step now i Hi) as Hs.
  split; [exact Hs|].
  apply Qlt_minus_iff. rewrite Hs. reflexivity.
Qed.

(** ** Facts about the sum NumPy takes *)

(** The length of the array is fuel enough: more fuel changes nothing. *)
Lemma pairwise_sum_fuel (fuel1 fuel2 : nat) (a : list float) :
  (length a <= fuel1)%nat -> (length a <= fuel2)%nat ->
  pairwise_sum fuel1 a = pairwise_sum fuel2 a.
Proof.
  revert fuel2 a. induction fuel1 as [|fuel1 IH]; intros fuel2 a H1 H2.
  - destruct a; [|simpl in H1; lia].
    destruct fuel2; reflexivity.
  - destruct fuel2 as [|fuel2].
    + destruct a; [reflexivity|simpl in H2; lia].
    + cbn [pairwise_sum]. cbv zeta.
      destruct (length a <=? 128)%nat eqn:Hn; [reflexivity|].
      apply Nat.leb_gt in Hn.
      set (n2 := (length a / 2 - (length a / 2) mod 8)%nat).
      assert (Hlo : (1 <= n2)%nat /\ (n2 <= length a)%nat).
      { subst n2.
        pose proof (Nat.mod_upper_bound (length a / 2) 8 ltac:(lia)).
        pose proof (Nat.div_mod_eq (length a) 2).
        pose proof (Nat.mod_upper_bound (length a) 2 ltac:(lia)).
        lia. }
      assert (Hf : (length (firstn n2 a) <= length a - 1)%nat)
        by (rewrite length_firstn;
            pose proof (Nat.div_mod_eq (length a) 2);
            pose proof (Nat.mod_upper_bound (length a) 2 ltac:(lia));
            subst n2; lia).
      assert (Hs : (length (skipn n2 a) <= length a - 1)%nat)
        by (rewrite length_skipn; lia).
      rewrite (IH fuel2 (firstn n2 a)) by lia.
      rewrite (IH fuel2 (skipn n2 a)) by lia.
      reflexivity.
Qed.

(** The order of the additions shows in the last bit: ten times 0.1 has
    the mean 0.1 as NumPy sums, and not when summed from left to right. *)
#[warnings="-inexact-float"]
Example pairwise_mean_values :
  pairwise_mean [400; 410; 420]%float = 410%float
  /\ pairwise_mean [nan; 400]%float = nan
  /\ pairwise_mean [] = nan
  /\ pairwise_mean (repeat 0.1%float 10) = 0.1%float
  /\ (sum_from 0 (repeat 0.1%float 10) / 10 <? 0.1)%float = true.
Proof. repeat split. Qed.

(** ** Facts about [get_position] *)

Section GetPositionFacts.

Variables sat_data satellite : Type.
Variable from_omm : sat_data -> option satellite.
Variable geographic_position_of : satellite -> Q -> geographic.
Variable round2 : float -> float.
Variable np_mean : list float -> float.
Variable now : datetime.

#[local] Abbreviation get_position' :=
  (get_position from_omm geographic_position_of round2 np_mean now).

Lemma zip3_samples (sat : satellite) (grid : list Q) :
  map (fun '(t_obj, la, lo) =>
         {| timestamp := t_obj; lat := round2 la; lon := round2 lo |})
      (zip3 grid
            (map latitude_degrees (map (geographic_position_of sat) grid))
            (map longitude_degrees (map (geographic_position_of sat) grid)))
  = map (fun t => point_of round2 t (geographic_position_of sat t)) grid.
Proof.
  unfold zip3. induction grid as [|t grid IH]; simpl.
  - reflexivity.
  - now rewrite IH.
Qed.

(** What [get_position] returns once the element set is accepted: one point
    per grid instant, and the mean over the elevations at all of them. *)
Lemma get_position_value (sd : sat_data) (sat : satellite) :
  from_omm sd = Some sat ->
  get_position' sd
  = Some (map (fun t => point_of round2 t (geographic_position_of sat t))
              (timeVector now),
          np_mean (map (fun t => elevation_km (geographic_position_of sat t))
                       (timeVector now))).
Proof.
  intros Hsat. unfold get_position. rewrite Hsat.
  cbv zeta. rewrite zip3_samples, map_map. reflexivity.
Qed.

Lemma samples_timestamps (sat : satellite) (grid : list Q) :
  map timestamp
      (map (fun t => point_of round2 t (geographic_position_of sat t)) grid)
  = grid.
Proof.
  rewrite map_map. simpl. apply map_id.
Qed.

Lemma get_position_inv (sd : sat_data) (path : list point) (m : float) :
  get_position' sd = Some (path, m) ->
  exists sat,
    from_omm sd = Some sat
    /\ path = map (fun t => point_of round2 t (geographic_position_of sat t))
                  (timeVector now)
    /\ m = np_mean (map (fun t => elevation_km (geographic_position_of sat t))
                        (timeVector now)).
Proof.
  intros H. destruct (from_omm sd) as [sat|] eqn:Hsat.
  - rewrite (get_position_value sd sat Hsat) in H. inversion H; subst.
    exists sat. repeat split.
  - unfold get_position in H. rewrite Hsat in H. discriminate.
Qed.

(** C3 (amended). When the element set is accepted, [get_position] returns
    a path with one point per grid instant, all 144 of them whether the
    sample succeeded or not, and the mean altitude is [np.mean] over the
    elevations at exactly the instants of the points of that path: no
    sample is left out of the path or of the mean. *)
Theorem mean_altitude_over_every_grid_sample
  (sd : sat_data) (sat : satellite) :
  from_omm sd = Some sat ->
  exists path m,
    get_position' sd = Some (path, m)
    /\ map timestamp path = timeVector now
    /\ length path = 144%nat
    /\ m = np_mean (map (fun p => elevation_km
                                    (geographic_position_of sat (timestamp p)))
                        path).
Proof.
  intros Hsat. eexists; eexists.
  split; [apply (get_position_value sd sat Hsat)|].
  split; [apply samples_timestamps|].
  split; [now rewrite length_map, timeVector_length|].
  rewrite map_map. reflexivity.
Qed.

(** C4 (amended). When the element set is accepted, the path holds at every
    grid index [i] the point built from the sample at [timeVector[i]],
    whatever that sample is: a sample whose coordinates are not finite is
    stored like any other, with its rounded latitude and longitude, and no
    instant is omitted. *)
Theorem every_grid_sample_is_stored (sd : sat_data) (sat : satellite) :
  from_omm sd = Some sat ->
  exists path m,
    get_position' sd = Some (path, m)
    /\ length path = 144%nat
    /\ forall i, (i < 144)%nat ->
         trajectory_at path i
         = Some (point_of round2 (nth i (timeVector now) 0%Q)
                   (geographic_position_of sat (nth i (timeVector now) 0%Q))).
Proof.
  intros Hsat. eexists; eexists.
  split; [apply (get_position_value sd sat Hsat)|].
  split; [now rewrite length_map, timeVector_length|].
  intros i Hi. unfold trajectory_at.
  rewrite nth_error_map.
  rewrite (nth_error_nth' _ 0%Q) by now rewrite timeVector_length.
  reflexivity.
Qed.

(** C5 (amended). [get_position] has no signal for an object without a
    successful sample: when the element set is accepted and the sample at
    every grid instant is non-finite, it returns normally, and what it
    returns is the path of 144 points built from those samples, one per
    grid instant in the grid's order, together with [np.mean] over the
    elevations of all 144 samples. *)
Theorem zero_success_object_gets_path_and_mean
  (sd : sat_data) (sat : satellite) :
  from_omm sd = Some sat ->
  (forall t, In t (timeVector now) ->
             sample_ok (geographic_position_of sat t) = false) ->
  exists path m,
    get_position' sd = Some (path, m)
    /\ length path = 144%nat
    /\ path = map (fun t => point_of round2 t (geographic_position_of sat t))
                  (timeVector now)
    /\ Forall (fun p => sample_ok (geographic_position_of sat (timestamp p))
                        = false) path
    /\ m = np_mean (map (fun t => elevation_km (geographic_position_of sat t))
                        (timeVector now))
    /\ length (map (fun t => elevation_km (geographic_position_of sat t))
                   (timeVector now)) = 144%nat.
Proof.
  intros Hsat Hzero. eexists; eexists.
  split; [apply (get_position_value sd sat Hsat)|].
  split; [now rewrite length_map, timeVector_length|].
  split; [reflexivity|].
  split; [|split; [reflexivity|now rewrite length_map, timeVector_length]].
  apply Forall_forall. intros p Hp.
  apply in_map_iff in Hp. destruct Hp as (t & <- & Ht).
  simpl. now apply Hzero.
Qed.

End GetPositionFacts.

(** *** [get_position] on the concrete element sets *)

Example healthy_object_position :
  option_map (fun r => (firstn 1 (fst r), snd r)) (demo_get_position Healthy)
  = Some ([mk_point (nth 0 (timeVector demo_now) 0%Q) 51.5 0.25], 400%float).
Proof. vm_compute. reflexivity. Qed.

Example malformed_element_set_raises : demo_get_position Malformed = None.
Proof. reflexivity. Qed.

Lemma mean_altitude_over_every_grid_sample_witness :
  demo_from_omm FailsAtMidnight = Some FailsAtMidnight
  /\ exists path m,
       demo_get_position FailsAtMidnight = Some (path, m)
       /\ map timestamp path = timeVector demo_now
       /\ length path = 144%nat
       /\ m = pairwise_mean
                (map (fun p => elevation_km
                                 (demo_geographic_position_of FailsAtMidnight
                                                              (timestamp p)))
                     path).
Proof.
  split; [reflexivity|].
  apply (mean_altitude_over_every_grid_sample
           demo_sat demo_sat demo_from_omm demo_geographic_position_of
           demo_round2 pairwise_mean demo_now FailsAtMidnight FailsAtMidnight).
  reflexivity.
Defined.

Lemma every_grid_sample_is_stored_witness :
  demo_from_omm FailsAtMidnight = Some FailsAtMidnight
  /\ exists path m,
       demo_get_position FailsAtMidnight = Some (path, m)
       /\ length path = 144%nat
       /\ forall i, (i < 144)%nat ->
            trajectory_at path i
            = Some (point_of demo_round2 (nth i (timeVector demo_now) 0%Q)
                      (demo_geographic_position_of FailsAtMidnight
                         (nth i (timeVector demo_now) 0%Q))).
Proof.
  split; [reflexivity|].
  apply (every_grid_sample_is_stored
           demo_sat demo_sat demo_from_omm demo_geographic_position_of
           demo_round2 pairwise_mean demo_now FailsAtMidnight FailsAtMidnight).
  reflexivity.
Defined.

Lemma zero_success_object_gets_path_and_mean_witness :
  demo_from_omm Decayed = Some Decayed
  /\ forallb (fun t => negb (sample_ok (demo_geographic_position_of Decayed t)))
             (timeVector demo_now) = true
  /\ exists path m,
       demo_get_position Decayed = Some (path, m)
       /\ length path = 144%nat
       /\ path = map (fun t => point_of demo_round2 t
                                 (demo_geographic_position_of Decayed t))
                     (timeVector demo_now)
       /\ Forall (fun p => sample_ok (demo_geographic_position_of Decayed
                                        (timestamp p)) = false) path
       /\ m = pairwise_mean
                (map (fun t => elevation_km
                                 (demo_geographic_position_of Decayed t))
                     (timeVector demo_now))
       /\ length (map (fun t => elevation_km
                                  (demo_geographic_position_of Decayed t))
                      (timeVector demo_now)) = 144%nat.
Proof.
  split; [reflexivity|]. split; [vm_compute; reflexivity|].
  apply (zero_success_object_gets_path_and_mean
           demo_sat demo_sat demo_from_omm demo_geographic_position_of
           demo_round2 pairwise_mean demo_now Decayed Decayed).
  - reflexivity.
  - intros t _. reflexivity.
Defined.

(** C3, counterexample. For the object whose propagation fails at the first
    grid instant, 143 samples succeed and their mean elevation is 400 km,
    yet the mean altitude returned is NaN: the failed sample is part of the
    mean. *)
Lemma mean_altitude_includes_failed_sample :
  length (successful_elevations FailsAtMidnight) = 143%nat
  /\ pairwise_mean (successful_elevations FailsAtMidnight) = 400%float
  /\ option_map snd (demo_get_position FailsAtMidnight) = Some nan
  /\ option_map snd (demo_get_position FailsAtMidnight)
     <> Some (pairwise_mean (successful_elevations FailsAtMidnight)).
Proof.
  assert (Hm : option_map snd (demo_get_position FailsAtMidnight) = Some nan)
    by (vm_compute; reflexivity).
  assert (Hs : pairwise_mean (successful_elevations FailsAtMidnight) = 400%float)
    by (vm_compute; reflexivity).
  split; [vm_compute; reflexivity|].
  split; [exact Hs|]. split; [exact Hm|].
  rewrite Hm, Hs. intros H.
  apply (f_equal (fun o => match o with
                           | Some x => PrimFloat.is_nan x
                           | None => false
                           end)) in H.
  vm_compute in H. discriminate.
Qed.

(** C4, counterexample. For the same object the sample at the first grid
    instant is not finite, and the path still has 144 points, the first of
    which is that instant's point with NaN coordinates: the failed sample
    is stored, not omitted. *)
Lemma failed_sample_is_stored :
  sample_ok (demo_geographic_position_of FailsAtMidnight
               (nth 0 (timeVector demo_now) 0%Q)) = false
  /\ option_map (fun r => length (fst r)) (demo_get_position FailsAtMidnight)
     = Some 144%nat
  /\ option_map (fun r => trajectory_at (fst r) 0)
                (demo_get_position FailsAtMidnight)
     = Some (Some (mk_point (nth 0 (timeVector demo_now) 0%Q) nan nan)).
Proof.
  split; [|split]; vm_compute; reflexivity.
Qed.

(** C5, counterexample. For the object whose propagation fails at every
    grid instant, zero samples succeed, and [get_position] returns normally
    with a path of 144 points and a NaN mean: nothing is signalled. *)
Lemma zero_success_object_is_returned :
  forallb (fun t => negb (sample_ok (demo_geographic_position_of Decayed t)))
          (timeVector demo_now) = true
  /\ option_map (fun r => length (fst r)) (demo_get_position Decayed)
     = Some 144%nat
  /\ option_map snd (demo_get_position Decayed) = Some nan.
Proof.
  split; [|split]; vm_compute; reflexivity.
Qed.

(** ** Facts about [load_data_smart] *)

(** *** The loader on the concrete inputs *)

Example first_call_recomputes_and_uploads :
  fst (load_data_smart env_ok fresh_process) = Returned
  /\ mem (snd (load_data_smart env_ok fresh_process))
     = globals_of (demo_snapshot today)
  /\ gcs (snd (load_data_smart env_ok fresh_process))
     = Some (Pickled (demo_snapshot today))
  /\ filter (fun ev => match ev with Logged _ _ => false | _ => true end)
            (io (snd (load_data_smart env_ok fresh_process)))
     = [BlobExists; ReadGbq TransformedSatellites; ReadGbq KpisView;
        BlobUpload].
Proof. repeat split. Qed.

Example fresh_blob_is_loaded :
  fst (load_data_smart env_ok process_with_fresh_blob) = Returned
  /\ mem (snd (load_data_smart env_ok process_with_fresh_blob))
     = globals_of (demo_snapshot today)
  /\ filter (fun ev => match ev with Logged _ _ => false | _ => true end)
            (io (snd (load_data_smart env_ok process_with_fresh_blob)))
     = [BlobExists; BlobDownload].
Proof. repeat split. Qed.

Example search_options_are_sorted_and_unique :
  unique_names
    [ mk_row "NOAA 19" "US" "LEO" (TrajectoryList []) None;
      mk_row "ISS (ZARYA)" "ISS" "LEO" (TrajectoryList []) None;
      mk_row "NOAA 19" "US" "LEO" (TrajectoryList []) None ]
  = ["ISS (ZARYA)"; "NOAA 19"]%string.
Proof. reflexivity. Qed.

(** *** Effects of the primitive steps *)

Lemma sweeps_emit (ev : event) (p : process) :
  sweeps (emit ev p) = ((if is_sweep ev then 1 else 0) + sweeps p)%nat.
Proof.
  unfold sweeps, emit; simpl. rewrite filter_app, length_app; simpl.
  destruct (is_sweep ev); simpl; lia.
Qed.

Lemma uploads_emit (ev : event) (p : process) :
  uploads (emit ev p) = ((if is_upload ev then 1 else 0) + uploads p)%nat.
Proof.
  unfold uploads, emit; simpl. rewrite filter_app, length_app; simpl.
  destruct (is_upload ev); simpl; lia.
Qed.

Lemma sweeps_logging (lvl : level) (msg : string) (p : process) :
  sweeps (logging lvl msg p) = sweeps p.
Proof. unfold logging. now rewrite sweeps_emit. Qed.

Lemma uploads_logging (lvl : level) (msg : string) (p : process) :
  uploads (logging lvl msg p) = uploads p.
Proof. unfold logging. now rewrite uploads_emit. Qed.

Lemma mem_emit (ev : event) (p : process) : mem (emit ev p) = mem p.
Proof. reflexivity. Qed.

Lemma gcs_emit (ev : event) (p : process) : gcs (emit ev p) = gcs p.
Proof. reflexivity. Qed.

Lemma mem_logging (lvl : level) (msg : string) (p : process) :
  mem (logging lvl msg p) = mem p.
Proof. reflexivity. Qed.

Lemma gcs_logging (lvl : level) (msg : string) (p : process) :
  gcs (logging lvl msg p) = gcs p.
Proof. reflexivity. Qed.

Lemma sweeps_set_df_main (df : dataframe) (p : process) :
  sweeps (set_df_main df p) = sweeps p.
Proof. reflexivity. Qed.

Lemma uploads_set_df_main (df : dataframe) (p : process) :
  uploads (set_df_main df p) = uploads p.
Proof. reflexivity. Qed.

Lemma sweeps_set_df_kpi (k : kpiframe) (p : process) :
  sweeps (set_df_kpi k p) = sweeps p.
Proof. reflexivity. Qed.

Lemma uploads_set_df_kpi (k : kpiframe) (p : process) :
  uploads (set_df_kpi k p) = uploads p.
Proof. reflexivity. Qed.

Lemma sweeps_set_timestamps (ts : list datetime) (p : process) :
  sweeps (set_timestamps ts p) = sweeps p.
Proof. reflexivity. Qed.

Lemma uploads_set_timestamps (ts : list datetime) (p : process) :
  uploads (set_timestamps ts p) = uploads p.
Proof. reflexivity. Qed.

Lemma sweeps_set_search_options (o : list search_option) (p : process) :
  sweeps (set_search_options o p) = sweeps p.
Proof. reflexivity. Qed.

Lemma uploads_set_search_options (o : list search_option) (p : process) :
  uploads (set_search_options o p) = uploads p.
Proof. reflexivity. Qed.

Lemma sweeps_set_gcs (b : blob_content) (p : process) :
  sweeps (set_gcs b p) = sweeps p.
Proof. reflexivity. Qed.

Lemma uploads_set_gcs (b : blob_content) (p : process) :
  uploads (set_gcs b p) = uploads p.
Proof. reflexivity. Qed.

Create Rewrite HintDb effects.

#[local] Hint Rewrite
  sweeps_emit uploads_emit sweeps_logging uploads_logging
  mem_emit gcs_emit mem_logging gcs_logging
  sweeps_set_df_main uploads_set_df_main sweeps_set_df_kpi
  uploads_set_df_kpi sweeps_set_timestamps uploads_set_timestamps
  sweeps_set_search_options uploads_set_search_options sweeps_set_gcs
  uploads_set_gcs : effects.

(** The counters see through the log lines and the assignments, which
    start no sweep and no upload. *)
Ltac through_assignments := autorewrite with effects.

Lemma cache_is_fresh_date (ts : list datetime) (today : Z) (g : globals) :
  cache_is_fresh ts today = true ->
  timestamps g = ts ->
  generated_date g = Some today.
Proof.
  unfold cache_is_fresh, generated_date. intros Hf ->.
  destruct ts as [|t0 ts]; [discriminate|].
  apply Z.eqb_eq in Hf. now rewrite Hf.
Qed.

(** *** The download from the warehouse (lines 66-101) *)

Ltac exits_without_snapshot :=
  simpl; through_assignments; simpl;
  split; [lia|];
  split; [reflexivity|];
  split; [reflexivity|];
  split; [lia|];
  left; split; [reflexivity|lia].

(** Every run of the download starts one sweep and at most one upload; it
    returns exactly when the warehouse's answers make a snapshot and the
    upload goes through, and otherwise exits with status 1.  When the
    upload raises, the snapshot is already in the globals. *)
Lemma refresh_from_bigquery_cases (e : env) (p : process) :
  sweeps (snd (refresh_from_bigquery e p)) = S (sweeps p)
  /\ match fst (refresh_from_bigquery e p) with
     | Returned =>
         exists d,
           warehouse_snapshot e = Some d
           /\ upload_raises e = false
           /\ mem (snd (refresh_from_bigquery e p)) = globals_of d
           /\ gcs (snd (refresh_from_bigquery e p)) = Some (Pickled d)
           /\ uploads (snd (refresh_from_bigquery e p)) = S (uploads p)
     | Exited code =>
         code = 1
         /\ gcs (snd (refresh_from_bigquery e p)) = gcs p
         /\ (uploads (snd (refresh_from_bigquery e p)) <= S (uploads p))%nat
         /\ (warehouse_snapshot e = None
             /\ uploads (snd (refresh_from_bigquery e p)) = uploads p
             \/ exists d,
                 warehouse_snapshot e = Some d
                 /\ upload_raises e = true
                 /\ df_main (mem (snd (refresh_from_bigquery e p)))
                    = Some (c_main d)
                 /\ df_kpi (mem (snd (refresh_from_bigquery e p)))
                    = Some (c_kpi d)
                 /\ timestamps (mem (snd (refresh_from_bigquery e p)))
                    = c_timestamps d)
     | Raised => False
     end.
Proof.
  unfold refresh_from_bigquery, warehouse_snapshot, critical_exit.
  destruct (gbq_main e) as [[|first df]|];
    [ exits_without_snapshot
    | 
    | exits_without_snapshot ].
  cbv beta iota zeta.
  destruct (if is_str _ then _ else _) as [df'|];
    [| exits_without_snapshot ].
  destruct (gbq_kpi e) as [kpi|];
    [| exits_without_snapshot ].
  destruct (timestamps_raw (to_numeric_coerce df')) as [raw|];
    [| exits_without_snapshot ].
  destruct (to_datetime raw) as [ts|];
    [| exits_without_snapshot ].
  destruct (upload_raises e) eqn:Hup; simpl; through_assignments; simpl.
  - split; [lia|]. repeat split; try lia. right.
    eexists; repeat split.
  - split; [lia|]. eexists; repeat split.
Qed.

(** *** The whole call *)

(** The four ways through [load_data_smart]: the entry in memory is served
    as it is; the look into the bucket raises; a snapshot dated today is
    loaded from the bucket; or the call goes to the warehouse, from a
    process that differs from the initial one in its log and, when the
    snapshot in the bucket lacks its ['kpi'] entry, in [df_main]. *)
Lemma load_data_smart_cases (e : env) (p : process) :
  match df_main (mem p) with
  | Some _ =>
      load_data_smart e p
      = (Returned, logging INFO "Data found in RAM. Skipping load."%string p)
  | None =>
      if exists_raises e then
        fst (load_data_smart e p) = Raised
        /\ mem (snd (load_data_smart e p)) = mem p
        /\ gcs (snd (load_data_smart e p)) = gcs p
        /\ sweeps (snd (load_data_smart e p)) = sweeps p
        /\ uploads (snd (load_data_smart e p)) = uploads p
      else if persisted_is_fresh e p then
        fst (load_data_smart e p) = Returned
        /\ (exists cached,
              gcs p = Some (Pickled cached)
              /\ mem (snd (load_data_smart e p)) = globals_of cached)
        /\ generated_date (mem (snd (load_data_smart e p)))
           = Some (today_utc e)
        /\ gcs (snd (load_data_smart e p)) = gcs p
        /\ sweeps (snd (load_data_smart e p)) = sweeps p
        /\ uploads (snd (load_data_smart e p)) = uploads p
      else
        exists p0,
          load_data_smart e p = refresh_from_bigquery e p0
          /\ (mem p0 = mem p
              \/ exists main ts,
                   gcs p = Some (PickledWithoutKpi main ts)
                   /\ mem p0 = mem (set_df_main main p))
          /\ gcs p0 = gcs p
          /\ sweeps p0 = sweeps p
          /\ uploads p0 = uploads p
  end.
Proof.
  unfold load_data_smart.
  destruct (df_main (mem p)) as [df|] eqn:Hmem; [reflexivity|].
  unfold load_after_check, check_persisted, persisted_is_fresh.
  destruct (exists_raises e); simpl.
  { through_assignments. repeat split; try assumption. }
  destruct (gcs p) as [[|cached|main ts]|] eqn:Hgcs; unfold read_gcs_cache.
  - (* the blob is unreadable *)
    destruct (download_raises e); simpl;
      eexists; (split; [reflexivity|]);
      through_assignments; (split; [left; reflexivity|]);
      repeat split; try assumption.
  - (* the blob is a snapshot *)
    destruct (download_raises e); simpl.
    + eexists; (split; [reflexivity|]).
      through_assignments; (split; [left; reflexivity|]);
      repeat split; try assumption.
    + destruct (cache_is_fresh (c_timestamps cached) (today_utc e)) eqn:Hfresh;
        simpl.
      * split; [reflexivity|].
        split; [exists cached; split; reflexivity|].
        split; [now apply (cache_is_fresh_date (c_timestamps cached))|].
        through_assignments. repeat split; try assumption.
      * eexists; (split; [reflexivity|]).
        through_assignments; (split; [left; reflexivity|]);
        repeat split; try assumption.
  - (* the blob is a snapshot without its ['kpi'] entry *)
    destruct (download_raises e); simpl.
    + eexists; (split; [reflexivity|]).
      through_assignments; (split; [left; reflexivity|]);
      repeat split; try assumption.
    + destruct (cache_is_fresh ts (today_utc e)) eqn:Hfresh; simpl.
      * eexists; (split; [reflexivity|]).
        through_assignments.
        split; [right; exists main, ts; split; reflexivity|].
        repeat split; try assumption.
      * eexists; (split; [reflexivity|]).
        through_assignments; (split; [left; reflexivity|]);
        repeat split; try assumption.
  - (* there is no blob *)
    destruct (download_raises e); simpl;
      eexists; (split; [reflexivity|]);
      through_assignments; (split; [left; reflexivity|]);
      repeat split; try assumption.
Qed.

Lemma load_data_smart_memory_hit (e : env) (p : process) :
  df_main (mem p) <> None ->
  load_data_smart e p
  = (Returned, logging INFO "Data found in RAM. Skipping load."%string p).
Proof.
  intros Hmem. pose proof (load_data_smart_cases e p) as H.
  destruct (df_main (mem p)); [exact H|contradiction].
Qed.

(** The three ways a call that found no entry in memory can end. *)
Lemma load_data_smart_miss (e : env) (p : process) :
  df_main (mem p) = None ->
  (fst (load_data_smart e p) = Raised
   /\ exists_raises e = true
   /\ mem (snd (load_data_smart e p)) = mem p
   /\ gcs (snd (load_data_smart e p)) = gcs p
   /\ sweeps (snd (load_data_smart e p)) = sweeps p
   /\ uploads (snd (load_data_smart e p)) = uploads p)
  \/ (fst (load_data_smart e p) = Returned
      /\ exists_raises e = false
      /\ persisted_is_fresh e p = true
      /\ (exists cached,
            gcs p = Some (Pickled cached)
            /\ mem (snd (load_data_smart e p)) = globals_of cached)
      /\ generated_date (mem (snd (load_data_smart e p))) = Some (today_utc e)
      /\ gcs (snd (load_data_smart e p)) = gcs p
      /\ sweeps (snd (load_data_smart e p)) = sweeps p
      /\ uploads (snd (load_data_smart e p)) = uploads p)
  \/ (exists_raises e = false
      /\ persisted_is_fresh e p = false
      /\ exists p0,
           load_data_smart e p = refresh_from_bigquery e p0
           /\ (mem p0 = mem p
               \/ exists main ts,
                    gcs p = Some (PickledWithoutKpi main ts)
                    /\ mem p0 = mem (set_df_main main p))
           /\ gcs p0 = gcs p
           /\ sweeps p0 = sweeps p
           /\ uploads p0 = uploads p).
Proof.
  intros Hmem. pose proof (load_data_smart_cases e p) as H.
  rewrite Hmem in H.
  destruct (exists_raises e).
  - left. tauto.
  - destruct (persisted_is_fresh e p).
    + right; left. tauto.
    + right; right. tauto.
Qed.

Lemma load_data_smart_returned_entry (e : env) (p p' : process) :
  load_data_smart e p = (Returned, p') -> df_main (mem p') <> None.
Proof.
  intros Hcall.
  destruct (df_main (mem p)) as [df|] eqn:Hmem.
  - rewrite load_data_smart_memory_hit in Hcall by congruence.
    inversion Hcall; subst. rewrite mem_logging. congruence.
  - destruct (load_data_smart_miss e p Hmem)
      as [(Ho & _)|[(_ & _ & _ & (c & _ & Hm) & _)|(_ & _ & p0 & Hr & _)]].
    + rewrite Hcall in Ho. discriminate.
    + rewrite Hcall in Hm. simpl in Hm. rewrite Hm. discriminate.
    + pose proof (refresh_from_bigquery_cases e p0) as (_ & Hc).
      rewrite <- Hr, Hcall in Hc. simpl in Hc.
      destruct Hc as (d & _ & _ & Hm & _). rewrite Hm. discriminate.
Qed.

Lemma load_data_smart_sweeps (e : env) (p : process) :
  (sweeps p <= sweeps (snd (load_data_smart e p)) <= S (sweeps p))%nat.
Proof.
  destruct (df_main (mem p)) as [df|] eqn:Hmem.
  - rewrite load_data_smart_memory_hit by congruence. simpl.
    rewrite sweeps_logging. lia.
  - destruct (load_data_smart_miss e p Hmem)
      as [(_ & _ & _ & _ & Hs & _)
         |[(_ & _ & _ & _ & _ & _ & Hs & _)|(_ & _ & p0 & Hr & _ & _ & Hs & _)]].
    + lia.
    + lia.
    + pose proof (refresh_from_bigquery_cases e p0) as (Hs' & _).
      rewrite Hr, Hs', Hs. lia.
Qed.

(** C1 (amended). A call that returns serves one of three entries.  If an
    entry was in memory, it is served unchanged, whatever its date, and
    nothing is recomputed.  If none was in memory and nothing is
    recomputed, the entry comes from the persisted snapshot and its date
    is the current UTC date.  If the call recomputes, the entry is the
    snapshot made of the warehouse's answers. *)
Theorem load_data_smart_served_entry (e : env) (p p' : process) :
  load_data_smart e p = (Returned, p') ->
  (df_main (mem p) <> None -> mem p' = mem p /\ sweeps p' = sweeps p)
  /\ (df_main (mem p) = None -> sweeps p' = sweeps p ->
      generated_date (mem p') = Some (today_utc e))
  /\ (df_main (mem p) = None -> sweeps p' <> sweeps p ->
      exists d, warehouse_snapshot e = Some d /\ mem p' = globals_of d).
Proof.
  intros Hcall. split; [|split].
  - intros Hmem. rewrite load_data_smart_memory_hit in Hcall by exact Hmem.
    inversion Hcall; subst. now rewrite mem_logging, sweeps_logging.
  - intros Hmem Hsame.
    destruct (load_data_smart_miss e p Hmem)
      as [(Ho & _)|[(_ & _ & _ & _ & Hd & _)|(_ & _ & p0 & Hr & _ & _ & Hs & _)]].
    + rewrite Hcall in Ho. discriminate.
    + now rewrite Hcall in Hd.
    + pose proof (refresh_from_bigquery_cases e p0) as (Hs' & _).
      rewrite <- Hr, Hcall in Hs'. simpl in Hs'. lia.
  - intros Hmem Hdiff.
    destruct (load_data_smart_miss e p Hmem)
      as [(Ho & _)
         |[(_ & _ & _ & _ & _ & _ & Hs & _)|(_ & _ & p0 & Hr & _)]].
    + rewrite Hcall in Ho. discriminate.
    + rewrite Hcall in Hs. simpl in Hs. contradiction.
    + pose proof (refresh_from_bigquery_cases e p0) as (_ & Hc).
      rewrite <- Hr, Hcall in Hc. simpl in Hc.
      destruct Hc as (d & Hw & _ & Hm & _). now exists d.
Qed.

Lemma load_data_smart_served_entry_witness :
  load_data_smart env_ok process_with_fresh_blob
  = (Returned, snd (load_data_smart env_ok process_with_fresh_blob))
  /\ (df_main (mem process_with_fresh_blob) <> None ->
   mem (snd (load_data_smart env_ok process_with_fresh_blob))
   = mem process_with_fresh_blob
   /\ sweeps (snd (load_data_smart env_ok process_with_fresh_blob))
      = sweeps process_with_fresh_blob)
  /\ (df_main (mem process_with_fresh_blob) = None ->
      sweeps (snd (load_data_smart env_ok process_with_fresh_blob))
      = sweeps process_with_fresh_blob ->
      generated_date (mem (snd (load_data_smart env_ok process_with_fresh_blob)))
      = Some (today_utc env_ok))
  /\ (df_main (mem process_with_fresh_blob) = None ->
      sweeps (snd (load_data_smart env_ok process_with_fresh_blob))
      <> sweeps process_with_fresh_blob ->
      exists d,
        warehouse_snapshot env_ok = Some d
        /\ mem (snd (load_data_smart env_ok process_with_fresh_blob))
           = globals_of d).
Proof.
  split; [reflexivity|].
  apply (load_data_smart_served_entry env_ok process_with_fresh_blob).
  reflexivity.
Defined.

(** C1, counterexample. The process holds an entry dated yesterday; a call
    made today returns, runs no sweep, and leaves that entry in place: the
    entry served is dated yesterday, not today. *)
Lemma stale_memory_entry_is_served :
  fst (load_data_smart env_ok stale_process) = Returned
  /\ generated_date (mem stale_process) = Some yesterday
  /\ today_utc env_ok = today
  /\ mem (snd (load_data_smart env_ok stale_process)) = mem stale_process
  /\ generated_date (mem (snd (load_data_smart env_ok stale_process)))
     = Some yesterday
  /\ generated_date (mem (snd (load_data_smart env_ok stale_process)))
     <> Some (today_utc env_ok)
  /\ sweeps (snd (load_data_smart env_ok stale_process)) = 0%nat.
Proof.
  repeat (split; [reflexivity|]).
  split; [|reflexivity].
  vm_compute. discriminate.
Qed.

(** C7. Of two calls, the second following a first that returned, with
    nothing in between: the second returns too, the globals it leaves are
    those the first left (so the date of the entry and every object's
    trajectory are identical), it runs no sweep, and the two calls together
    run at most one.  This holds whatever the clock reads at either call,
    hence for two calls within the same UTC day. *)
Theorem second_call_is_served_from_memory
  (e1 e2 : env) (p p1 p2 : process) (o2 : outcome) :
  load_data_smart e1 p = (Returned, p1) ->
  load_data_smart e2 p1 = (o2, p2) ->
  o2 = Returned
  /\ mem p2 = mem p1
  /\ generated_date (mem p2) = generated_date (mem p1)
  /\ option_map (map Trajectory) (df_main (mem p2))
     = option_map (map Trajectory) (df_main (mem p1))
  /\ sweeps p2 = sweeps p1
  /\ (sweeps p2 <= S (sweeps p))%nat.
Proof.
  intros Hfirst Hsecond.
  pose proof (load_data_smart_returned_entry e1 p p1 Hfirst) as Hentry.
  rewrite load_data_smart_memory_hit in Hsecond by exact Hentry.
  inversion Hsecond; subst.
  rewrite mem_logging, sweeps_logging.
  repeat split.
  pose proof (load_data_smart_sweeps e1 p) as Hs.
  rewrite Hfirst in Hs. simpl in Hs. lia.
Qed.

Lemma second_call_is_served_from_memory_witness :
  today_utc env_ok = today_utc env_upload_fails
  /\ load_data_smart env_ok fresh_process
     = (Returned, snd (load_data_smart env_ok fresh_process))
  /\ fst (load_data_smart env_upload_fails
            (snd (load_data_smart env_ok fresh_process))) = Returned
  /\ mem (snd (load_data_smart env_upload_fails
                 (snd (load_data_smart env_ok fresh_process))))
     = mem (snd (load_data_smart env_ok fresh_process))
  /\ sweeps (snd (load_data_smart env_upload_fails
                    (snd (load_data_smart env_ok fresh_process)))) = 1%nat.
Proof.
  destruct (second_call_is_served_from_memory
              env_ok env_upload_fails fresh_process
              (snd (load_data_smart env_ok fresh_process))
              (snd (load_data_smart env_upload_fails
                      (snd (load_data_smart env_ok fresh_process))))
              (fst (load_data_smart env_upload_fails
                      (snd (load_data_smart env_ok fresh_process))))
              eq_refl eq_refl)
    as (Ho & Hm & _ & _ & Hs & _).
  split; [reflexivity|]. split; [reflexivity|].
  split; [exact Ho|]. split; [exact Hm|].
  rewrite Hs. reflexivity.
Defined.

(** C10. A call that serves the entry in memory, or a persisted snapshot
    validated as fresh, returns without starting an upload and leaves the
    blob as it was, and it runs no sweep; and whatever the call does, an
    upload is started or the blob changed only when the call went to the
    warehouse. *)
Theorem bucket_written_only_when_recomputing
  (e : env) (p p' : process) (o : outcome) :
  load_data_smart e p = (o, p') ->
  (df_main (mem p) <> None \/ persisted_is_fresh e p = true ->
   o = Returned
   /\ gcs p' = gcs p
   /\ uploads p' = uploads p
   /\ sweeps p' = sweeps p)
  /\ (uploads p' <> uploads p \/ gcs p' <> gcs p -> sweeps p' = S (sweeps p)).
Proof.
  intros Hcall.
  destruct (df_main (mem p)) as [df|] eqn:Hmem.
  - rewrite load_data_smart_memory_hit in Hcall by congruence.
    inversion Hcall; subst.
    rewrite gcs_logging, uploads_logging, sweeps_logging.
    split; [intros _; repeat split|]. intros [H|H]; contradiction.
  - destruct (load_data_smart_miss e p Hmem)
      as [(Ho & Hex & _ & Hg & Hs & Hu)
         |[(Ho & _ & _ & _ & _ & Hg & Hs & Hu)
          |(Hex & Hfresh & p0 & Hr & _ & Hg0 & Hs0 & Hu0)]];
      rewrite ?Hcall in *; simpl in *.
    + split.
      * intros [H|H]; [contradiction|].
        unfold persisted_is_fresh in H. rewrite Hex in H. discriminate.
      * intros [H|H]; contradiction.
    + split.
      * intros _. repeat split; assumption.
      * intros [H|H]; contradiction.
    + split.
      * intros [H|H]; [contradiction|congruence].
      * intros _.
        pose proof (refresh_from_bigquery_cases e p0) as (Hs' & _).
        rewrite <- Hr in Hs'. simpl in Hs'. lia.
Qed.

Lemma bucket_written_only_when_recomputing_witness :
  load_data_smart env_ok process_with_fresh_blob
  = (Returned, snd (load_data_smart env_ok process_with_fresh_blob))
  /\ persisted_is_fresh env_ok process_with_fresh_blob = true
  /\ gcs (snd (load_data_smart env_ok process_with_fresh_blob))
     = gcs process_with_fresh_blob
  /\ uploads (snd (load_data_smart env_ok process_with_fresh_blob))
     = uploads process_with_fresh_blob
  /\ sweeps (snd (load_data_smart env_ok process_with_fresh_blob))
     = sweeps process_with_fresh_blob.
Proof.
  destruct (bucket_written_only_when_recomputing
              env_ok process_with_fresh_blob
              (snd (load_data_smart env_ok process_with_fresh_blob))
              Returned eq_refl)
    as (Hserved & _).
  destruct (Hserved (or_intror eq_refl))
    as (_ & Hg & Hu & Hs).
  split; [reflexivity|]. split; [reflexivity|].
  split; [exact Hg|]. split; [exact Hu|exact Hs].
Defined.

Lemma persisted_read_fails_not_fresh (e : env) (p : process) :
  persisted_read_fails e p = true ->
  exists_raises e = false /\ persisted_is_fresh e p = false.
Proof.
  unfold persisted_read_fails, persisted_is_fresh.
  destruct (exists_raises e); simpl; [discriminate|].
  destruct (gcs p) as [[|cached|main ts]|]; intros H; try discriminate.
  - split; [reflexivity|]. now rewrite andb_false_r.
  - rewrite H. split; reflexivity.
  - split; [reflexivity|]. now rewrite andb_false_r.
Qed.

(** Once the call goes to the warehouse and the warehouse's answers make a
    snapshot, the upload decides how the call ends. *)
Lemma refresh_from_bigquery_with_snapshot
  (e : env) (p : process) (d : cached_data) :
  warehouse_snapshot e = Some d ->
  (upload_raises e = false ->
   fst (refresh_from_bigquery e p) = Returned
   /\ mem (snd (refresh_from_bigquery e p)) = globals_of d
   /\ gcs (snd (refresh_from_bigquery e p)) = Some (Pickled d))
  /\ (upload_raises e = true ->
      fst (refresh_from_bigquery e p) = Exited 1
      /\ df_main (mem (snd (refresh_from_bigquery e p))) = Some (c_main d)
      /\ df_kpi (mem (snd (refresh_from_bigquery e p))) = Some (c_kpi d)
      /\ timestamps (mem (snd (refresh_from_bigquery e p))) = c_timestamps d
      /\ gcs (snd (refresh_from_bigquery e p)) = gcs p).
Proof.
  intros Hw. pose proof (refresh_from_bigquery_cases e p) as (_ & Hc).
  destruct (fst (refresh_from_bigquery e p)) as [| |code].
  - destruct Hc as (d' & Hw' & Hup & Hm & Hg & _).
    assert (d' = d) by congruence. subst d'.
    split; [intros _; repeat split; assumption|congruence].
  - contradiction.
  - destruct Hc as (-> & Hg & _ & [(Hw' & _)|(d' & Hw' & Hup & Hm & Hk & Ht)]);
      [congruence|].
    assert (d' = d) by congruence. subst d'.
    split; [congruence|intros _; repeat split; assumption].
Qed.

(** C2 (amended). A call that finds an entry in memory returns without
    touching the bucket, so no failure of the store can reach it.  For a
    call that finds none, while the warehouse's answers make a snapshot:
    if reading the persisted snapshot fails (the download raises, or the
    bytes are no snapshot) and the upload goes through, the call returns
    with the recomputed snapshot in memory and in the bucket; if the call
    recomputes and the upload raises, the call ends in [sys.exit(1)], with
    the recomputed frame, KPIs and timestamps already in the globals and
    the blob untouched. *)
Theorem persisted_read_failure_recovers_upload_failure_exits
  (e : env) (p : process) (d : cached_data) :
  warehouse_snapshot e = Some d ->
  (df_main (mem p) <> None ->
   fst (load_data_smart e p) = Returned
   /\ mem (snd (load_data_smart e p)) = mem p
   /\ gcs (snd (load_data_smart e p)) = gcs p
   /\ uploads (snd (load_data_smart e p)) = uploads p)
  /\ (df_main (mem p) = None ->
      persisted_read_fails e p = true ->
      upload_raises e = false ->
      fst (load_data_smart e p) = Returned
      /\ mem (snd (load_data_smart e p)) = globals_of d
      /\ gcs (snd (load_data_smart e p)) = Some (Pickled d))
  /\ (df_main (mem p) = None ->
      exists_raises e = false ->
      persisted_is_fresh e p = false ->
      upload_raises e = true ->
      fst (load_data_smart e p) = Exited 1
      /\ df_main (mem (snd (load_data_smart e p))) = Some (c_main d)
      /\ df_kpi (mem (snd (load_data_smart e p))) = Some (c_kpi d)
      /\ timestamps (mem (snd (load_data_smart e p))) = c_timestamps d
      /\ gcs (snd (load_data_smart e p)) = gcs p).
Proof.
  intros Hw.
  assert (Hgo : df_main (mem p) = None ->
                exists_raises e = false -> persisted_is_fresh e p = false ->
                exists p0, load_data_smart e p = refresh_from_bigquery e p0
                           /\ gcs p0 = gcs p).
  { intros Hmem Hex Hfresh.
    destruct (load_data_smart_miss e p Hmem)
      as [(_ & Hex' & _)|[(_ & _ & Hfresh' & _)|(_ & _ & p0 & Hr & _ & Hg & _)]];
      [congruence|congruence|].
    exists p0. now split. }
  split; [|split].
  - intros Hmem. rewrite load_data_smart_memory_hit by exact Hmem. simpl.
    rewrite uploads_logging. repeat split.
  - intros Hmem Hfail Hup.
    destruct (persisted_read_fails_not_fresh e p Hfail) as (Hex & Hfresh).
    destruct (Hgo Hmem Hex Hfresh) as (p0 & -> & _).
    now apply (refresh_from_bigquery_with_snapshot e p0 d Hw).
  - intros Hmem Hex Hfresh Hup.
    destruct (Hgo Hmem Hex Hfresh) as (p0 & -> & Hg).
    rewrite <- Hg.
    now apply (refresh_from_bigquery_with_snapshot e p0 d Hw).
Qed.

Lemma persisted_read_failure_recovers_upload_failure_exits_witness :
  (warehouse_snapshot env_upload_fails = Some (demo_snapshot today)
   /\ df_main (mem stale_process) <> None
   /\ fst (load_data_smart env_upload_fails stale_process) = Returned
   /\ gcs (snd (load_data_smart env_upload_fails stale_process))
      = gcs stale_process)
  /\ (warehouse_snapshot env_ok = Some (demo_snapshot today)
      /\ df_main (mem process_with_bad_blob) = None
      /\ persisted_read_fails env_ok process_with_bad_blob = true
      /\ fst (load_data_smart env_ok process_with_bad_blob) = Returned
      /\ mem (snd (load_data_smart env_ok process_with_bad_blob))
         = globals_of (demo_snapshot today)
      /\ gcs (snd (load_data_smart env_ok process_with_bad_blob))
         = Some (Pickled (demo_snapshot today)))
  /\ (warehouse_snapshot env_upload_fails = Some (demo_snapshot today)
      /\ df_main (mem process_with_bad_blob) = None
      /\ persisted_is_fresh env_upload_fails process_with_bad_blob = false
      /\ fst (load_data_smart env_upload_fails process_with_bad_blob)
         = Exited 1
      /\ df_main (mem (snd (load_data_smart env_upload_fails
                              process_with_bad_blob)))
         = Some (c_main (demo_snapshot today))
      /\ gcs (snd (load_data_smart env_upload_fails process_with_bad_blob))
         = gcs process_with_bad_blob).
Proof.
  split; [|split].
  - destruct (persisted_read_failure_recovers_upload_failure_exits
                env_upload_fails stale_process (demo_snapshot today)
                eq_refl) as (Hhit & _).
    assert (Hentry : df_main (mem stale_process) <> None) by discriminate.
    destruct (Hhit Hentry) as (Ho & _ & Hg & _).
    split; [reflexivity|]. split; [exact Hentry|].
    split; [exact Ho|exact Hg].
  - destruct (persisted_read_failure_recovers_upload_failure_exits
                env_ok process_with_bad_blob (demo_snapshot today)
                eq_refl) as (_ & Hread & _).
    destruct (Hread eq_refl eq_refl eq_refl) as (Ho & Hm & Hg).
    split; [reflexivity|]. split; [reflexivity|]. split; [reflexivity|].
    split; [exact Ho|]. split; [exact Hm|exact Hg].
  - destruct (persisted_read_failure_recovers_upload_failure_exits
                env_upload_fails process_with_bad_blob (demo_snapshot today)
                eq_refl) as (_ & _ & Hwrite).
    destruct (Hwrite eq_refl eq_refl eq_refl eq_refl) as (Ho & Hm & _ & _ & Hg).
    split; [reflexivity|]. split; [reflexivity|]. split; [reflexivity|].
    split; [exact Ho|]. split; [exact Hm|exact Hg].
Defined.

(** C2, counterexample. The process has no entry and the bucket no blob;
    the warehouse answers and the recomputed frame is stored in [df_main],
    but the upload raises: the call does not return, it ends in
    [sys.exit(1)]. *)
Lemma upload_failure_exits_the_process :
  warehouse_snapshot env_upload_fails = Some (demo_snapshot today)
  /\ fst (load_data_smart env_upload_fails fresh_process) = Exited 1
  /\ fst (load_data_smart env_upload_fails fresh_process) <> Returned
  /\ df_main (mem (snd (load_data_smart env_upload_fails fresh_process)))
     = Some (demo_frame today)
  /\ uploads (snd (load_data_smart env_upload_fails fresh_process)) = 1%nat.
Proof.
  split; [reflexivity|]. split; [reflexivity|].
  split; [vm_compute; discriminate|].
  split; reflexivity.
Qed.

(** *** Calls one after another, and calls that overlap *)

Lemma serve_from_memory (calls : list env) (p : process) :
  df_main (mem p) <> None -> sweeps (serve calls p) = sweeps p.
Proof.
  revert p. induction calls as [|e calls IH]; intros p Hmem; simpl.
  - reflexivity.
  - rewrite load_data_smart_memory_hit by exact Hmem.
    rewrite IH by (rewrite mem_logging; exact Hmem).
    apply sweeps_logging.
Qed.

(** A call in flight that is left alone does what [load_data_smart] does. *)
Lemma lone_thread_is_load_data_smart (e : env) (p : process) :
  run [0; 0; 0]%nat e [AtEntry] p
  = ([Finished (fst (load_data_smart e p))], snd (load_data_smart e p)).
Proof.
  unfold load_data_smart. simpl.
  destruct (df_main (mem p)); simpl; [reflexivity|].
  unfold load_after_check.
  destruct (check_persisted e p) as [[o|] p1]; simpl; [reflexivity|].
  destruct (refresh_from_bigquery e p1); reflexivity.
Qed.

Lemma serve_at_most_one_sweep (calls : list env) (p : process) :
  (sweeps (serve calls p) <= S (sweeps p))%nat.
Proof.
  revert p. induction calls as [|e calls IH]; intros p; simpl; [lia|].
  destruct (df_main (mem p)) as [df|] eqn:Hmem.
  - rewrite load_data_smart_memory_hit by congruence.
    rewrite serve_from_memory by (rewrite mem_logging; congruence).
    rewrite sweeps_logging. lia.
  - pose proof (load_data_smart_sweeps e p) as Hs.
    destruct (load_data_smart e p) as [[| |code] p'] eqn:Hcall;
      simpl in Hs.
    + rewrite serve_from_memory
        by exact (load_data_smart_returned_entry e p p' Hcall).
      lia.
    + destruct (load_data_smart_miss e p Hmem)
        as [(_ & _ & _ & _ & Hs' & _)
           |[(Ho & _)|(_ & _ & p0 & Hr & _)]];
        rewrite ?Hcall in *; simpl in *.
      * specialize (IH p'). lia.
      * discriminate.
      * pose proof (refresh_from_bigquery_cases e p0) as (_ & Hc).
        rewrite <- Hr in Hc. simpl in Hc. contradiction.
    + lia.
Qed.

(** C9 (amended). However many calls one process serves one after another,
    they run at most one sweep between them; none when an entry is in
    memory at the start; and exactly one when the first of them finds no
    entry in memory and no fresh persisted snapshot. *)
Theorem sequential_calls_sweep_at_most_once
  (e : env) (calls : list env) (p : process) :
  (sweeps (serve calls p) <= S (sweeps p))%nat
  /\ (df_main (mem p) <> None -> sweeps (serve calls p) = sweeps p)
  /\ (df_main (mem p) = None ->
      exists_raises e = false ->
      persisted_is_fresh e p = false ->
      sweeps (serve (e :: calls) p) = S (sweeps p)).
Proof.
  split; [apply serve_at_most_one_sweep|].
  split; [apply serve_from_memory|].
  intros Hmem Hex Hfresh. simpl.
  destruct (load_data_smart_miss e p Hmem)
    as [(_ & Hex' & _)|[(_ & _ & Hfresh' & _)|(_ & _ & p0 & Hr & _ & _ & Hs & _)]];
    [congruence|congruence|].
  pose proof (refresh_from_bigquery_cases e p0) as (Hs' & Hc).
  rewrite <- Hr in Hs', Hc. rewrite Hs in Hs'.
  destruct (load_data_smart e p) as [[| |code] p'] eqn:Hcall;
    simpl in Hs', Hc.
  - rewrite serve_from_memory
      by exact (load_data_smart_returned_entry e p p' Hcall).
    exact Hs'.
  - contradiction.
  - exact Hs'.
Qed.

(** C9, counterexample. Two calls arrive at a process with no entry and an
    empty bucket.  Each passes the test of line 35, then each finds no
    blob, then each downloads from the warehouse: both return, and two
    sweeps have run. *)
Lemma overlapping_calls_each_sweep :
  df_main (mem fresh_process) = None
  /\ fst (run [0; 1; 0; 1; 0; 1]%nat env_ok [AtEntry; AtEntry] fresh_process)
     = [Finished Returned; Finished Returned]
  /\ sweeps (snd (run [0; 1; 0; 1; 0; 1]%nat env_ok [AtEntry; AtEntry]
                      fresh_process)) = 2%nat.
Proof.
  split; [reflexivity|]. split; reflexivity.
Qed.
(** ** Further facts: the grid within its day *)

Lemma instant_within_day (d : Z) (m : Z) :
  0 <= m < 1440 ->
  (inject_Z d <= inject_Z d + inject_Z m / 1440
   /\ inject_Z d + inject_Z m / 1440 < inject_Z d + 1)%Q.
Proof.
  intros Hm. unfold Qle, Qlt, Qplus, Qdiv, Qmult, Qinv, inject_Z; simpl.
  split; lia.
Qed.

Lemma last_is_nth {A : Type} (l : list A) (d : A) :
  last l d = nth (length l - 1) l d.
Proof.
  induction l as [|a [|b l] IH]; try reflexivity.
  change (last (a :: b :: l) d) with (last (b :: l) d).
  rewrite IH. simpl. now rewrite Nat.sub_0_r.
Qed.

(** X1. Every instant of the grid lies on the UTC day of [now]: at or after
    its midnight and before the next.  The instant at index [i] is [10 * i]
    minutes past midnight, so the last one is at 23:50. *)
Theorem timeVector_stays_within_the_day (now : datetime) :
  Forall (fun t => (inject_Z (date now) <= t
                    /\ t < inject_Z (date now) + 1)%Q)
         (timeVector now)
  /\ (forall i, (i < 144)%nat ->
        (nth i (timeVector now) 0
         == inject_Z (date now) + inject_Z (10 * Z.of_nat i) / 1440)%Q)
  /\ (last (timeVector now) 0 == inject_Z (date now) + 1430 / 1440)%Q.
Proof.
  assert (Hnth : forall i, (i < 144)%nat ->
            (nth i (timeVector now) 0
             == inject_Z (date now) + inject_Z (10 * Z.of_nat i) / 1440)%Q).
  { intros i Hi. rewrite timeVector_nth by exact Hi.
    now rewrite start_time_is_day_start. }
  split; [|split; [exact Hnth|]].
  - apply Forall_forall. intros t Ht.
    destruct (In_nth _ _ 0%Q Ht) as (i & Hi & <-).
    rewrite timeVector_length in Hi.
    rewrite (Hnth i Hi). apply instant_within_day. lia.
  - rewrite last_is_nth, timeVector_length. simpl Nat.sub.
    rewrite (Hnth 143%nat) by lia. reflexivity.
Qed.

(** ** Further facts: the search options (lines 58-59 and 95-96) *)

Lemma insert_sorted_In (s x : string) (l : list string) :
  In x (insert_sorted s l) <-> x = s \/ In x l.
Proof.
  induction l as [|y l IH]; simpl.
  - intuition congruence.
  - destruct (String.leb s y); simpl; [intuition congruence|].
    rewrite IH. intuition congruence.
Qed.

Lemma sorted_In (x : string) (l : list string) : In x (sorted l) <-> In x l.
Proof.
  unfold sorted. induction l as [|y l IH]; simpl; [tauto|].
  rewrite insert_sorted_In, IH. intuition congruence.
Qed.

Lemma insert_sorted_NoDup (s : string) (l : list string) :
  ~ In s l -> NoDup l -> NoDup (insert_sorted s l).
Proof.
  induction l as [|y l IH]; simpl; intros Hs Hl.
  - constructor; [tauto|constructor].
  - destruct (String.leb s y).
    + constructor; [simpl; tauto|exact Hl].
    + inversion Hl as [|? ? Hy Hl']; subst.
      constructor.
      * rewrite insert_sorted_In. intuition congruence.
      * apply IH; tauto.
Qed.

Lemma sorted_NoDup (l : list string) : NoDup l -> NoDup (sorted l).
Proof.
  unfold sorted. induction 1 as [|x l Hx Hl IH]; simpl; [constructor|].
  apply insert_sorted_NoDup; [|exact IH].
  fold (sorted l). now rewrite sorted_In.
Qed.

Lemma insert_sorted_HdRel (s a : string) (l : list string) :
  String.leb a s = true ->
  HdRel (fun x y => String.leb x y = true) a l ->
  HdRel (fun x y => String.leb x y = true) a (insert_sorted s l).
Proof.
  intros Has Hal. destruct l as [|y l]; simpl.
  - now constructor.
  - destruct (String.leb s y); constructor; [exact Has|].
    now inversion Hal.
Qed.

Lemma insert_sorted_Sorted (s : string) (l : list string) :
  Sorted (fun x y => String.leb x y = true) l ->
  Sorted (fun x y => String.leb x y = true) (insert_sorted s l).
Proof.
  induction 1 as [|y l Hl IH Hy]; simpl.
  - repeat constructor.
  - destruct (String.leb s y) eqn:Hsy.
    + constructor; [now constructor|now constructor].
    + constructor; [exact IH|].
      apply insert_sorted_HdRel; [|exact Hy].
      destruct (String.leb_total s y) as [H|H]; congruence.
Qed.

Lemma sorted_Sorted (l : list string) :
  Sorted (fun x y => String.leb x y = true) (sorted l).
Proof.
  unfold sorted. induction l as [|x l IH]; simpl; [constructor|].
  now apply insert_sorted_Sorted.
Qed.

(** X2. The search options built from a frame offer every object name of
    the frame and no other, each once, in ascending order, with the name as
    both the label and the value. *)
Theorem search_options_sorted_unique_complete (df : dataframe) :
  map label (make_search_options df) = unique_names df
  /\ map value (make_search_options df) = unique_names df
  /\ Sorted (fun x y => String.leb x y = true) (unique_names df)
  /\ NoDup (unique_names df)
  /\ (forall name,
        In name (unique_names df) <-> In name (map Object_Name df)).
Proof.
  unfold make_search_options, unique_names.
  split; [rewrite map_map; apply map_id|].
  split; [rewrite map_map; apply map_id|].
  split; [apply sorted_Sorted|].
  split; [apply sorted_NoDup, NoDup_nodup|].
  intros name. now rewrite sorted_In, nodup_In.
Qed.
(** ** Further facts: the loader and the warm-up route *)

(** A call that returns after going to the warehouse leaves the snapshot
    made of the warehouse's answers in memory and in the bucket. *)
Lemma load_data_smart_recomputed (e : env) (p p' : process) :
  load_data_smart e p = (Returned, p') ->
  sweeps p' <> sweeps p ->
  exists d,
    warehouse_snapshot e = Some d
    /\ mem p' = globals_of d
    /\ gcs p' = Some (Pickled d).
Proof.
  intros Hcall Hsw.
  destruct (df_main (mem p)) as [df|] eqn:Hmem.
  - rewrite load_data_smart_memory_hit in Hcall by congruence.
    inversion Hcall; subst. now rewrite sweeps_logging in Hsw.
  - destruct (load_data_smart_miss e p Hmem)
      as [(Ho & _)
         |[(_ & _ & _ & _ & _ & _ & Hs & _)|(_ & _ & p0 & Hr & _)]].
    + rewrite Hcall in Ho. discriminate.
    + rewrite Hcall in Hs. simpl in Hs. contradiction.
    + pose proof (refresh_from_bigquery_cases e p0) as (_ & Hc).
      rewrite <- Hr, Hcall in Hc. simpl in Hc.
      destruct Hc as (d & Hw & _ & Hm & Hg & _). now exists d.
Qed.

(** What a call that does not exit leaves in memory. *)
Lemma load_data_smart_keeps_globals_whole (e : env) (p p' : process)
  (o : outcome) :
  load_data_smart e p = (o, p') ->
  (forall code, o <> Exited code) ->
  mem p' = mem p \/ exists d, mem p' = globals_of d.
Proof.
  intros Hcall Halive.
  destruct (df_main (mem p)) as [df|] eqn:Hmem.
  - rewrite load_data_smart_memory_hit in Hcall by congruence.
    inversion Hcall; subst. left. apply mem_logging.
  - destruct (load_data_smart_miss e p Hmem)
      as [(_ & _ & Hm & _)
         |[(_ & _ & _ & (c & _ & Hm) & _)|(_ & _ & p0 & Hr & _)]];
      rewrite ?Hcall in *; simpl in *.
    + now left.
    + right. now exists c.
    + pose proof (refresh_from_bigquery_cases e p0) as (_ & Hc).
      rewrite <- Hr in Hc. simpl in Hc.
      destruct o as [| |code].
      * destruct Hc as (d & _ & _ & Hm & _). right. now exists d.
      * contradiction.
      * exfalso. now apply (Halive code).
Qed.

(** X3. In a process that starts with the initial globals and serves calls
    of the loader one after another without exiting, the globals are either
    still the initial ones or those of one whole snapshot: whenever
    [df_main] is set, so is [df_kpi], and the search options are those of
    [df_main]. *)
Theorem reachable_globals_are_whole (p : process) :
  reachable p ->
  (mem p = initial_globals \/ exists d, mem p = globals_of d)
  /\ (forall df,
        df_main (mem p) = Some df ->
        df_kpi (mem p) <> None
        /\ search_options (mem p) = make_search_options df).
Proof.
  intros Hp.
  assert (Hwhole : mem p = initial_globals \/ exists d, mem p = globals_of d).
  { induction Hp as [p H0|e p p' o _ IH Hcall Halive].
    - now left.
    - destruct (load_data_smart_keeps_globals_whole e p p' o Hcall Halive)
        as [Hsame|Hd].
      + now rewrite Hsame.
      + now right. }
  split; [exact Hwhole|].
  intros df Hdf. destruct Hwhole as [H0|(d & Hd)].
  - rewrite H0 in Hdf. discriminate.
  - rewrite Hd in Hdf |- *. simpl in *.
    inversion Hdf; subst. split; [discriminate|reflexivity].
Qed.

Lemma reachable_globals_are_whole_witness :
  reachable loaded_process
  /\ (mem loaded_process = initial_globals
      \/ exists d, mem loaded_process = globals_of d)
  /\ (forall df,
        df_main (mem loaded_process) = Some df ->
        df_kpi (mem loaded_process) <> None
        /\ search_options (mem loaded_process) = make_search_options df).
Proof.
  assert (Hr : reachable loaded_process).
  { apply (reachable_call env_ok fresh_process loaded_process Returned).
    - now apply reachable_start.
    - reflexivity.
    - discriminate. }
  split; [exact Hr|].
  exact (reachable_globals_are_whole loaded_process Hr).
Defined.


Lemma cache_is_fresh_iff_date (d : cached_data) (today : Z) :
  cache_is_fresh (c_timestamps d) today = true
  <-> generated_date (globals_of d) = Some today.
Proof.
  unfold cache_is_fresh, generated_date, globals_of; simpl.
  destruct (c_timestamps d) as [|t0 ts]; [split; discriminate|].
  rewrite Z.eqb_eq. split; congruence.
Qed.

(** X5. A snapshot that one call recomputed and uploaded is reused by a
    process that starts later with the same bucket exactly when its first
    timestamp is dated the day of that later call: then the later call
    returns with the same globals and runs no sweep; otherwise (another
    date, or no timestamp at all) the later call goes to the warehouse
    again. *)
Theorem uploaded_snapshot_reused_iff_dated_today
  (e1 e2 : env) (p1 p1' p2 : process) :
  load_data_smart e1 p1 = (Returned, p1') ->
  sweeps p1' <> sweeps p1 ->
  df_main (mem p2) = None ->
  gcs p2 = gcs p1' ->
  exists_raises e2 = false ->
  download_raises e2 = false ->
  (generated_date (mem p1') = Some (today_utc e2) ->
   fst (load_data_smart e2 p2) = Returned
   /\ mem (snd (load_data_smart e2 p2)) = mem p1'
   /\ gcs (snd (load_data_smart e2 p2)) = gcs p2
   /\ sweeps (snd (load_data_smart e2 p2)) = sweeps p2)
  /\ (generated_date (mem p1') <> Some (today_utc e2) ->
      sweeps (snd (load_data_smart e2 p2)) = S (sweeps p2)).
Proof.
  intros Hcall Hsw Hmem Hgcs Hex Hdl.
  destruct (load_data_smart_recomputed e1 p1 p1' Hcall Hsw)
    as (d & _ & Hm & Hg).
  rewrite Hg in Hgcs.
  assert (Hfresh : persisted_is_fresh e2 p2
                   = cache_is_fresh (c_timestamps d) (today_utc e2)).
  { unfold persisted_is_fresh. now rewrite Hex, Hdl, Hgcs. }
  split.
  - intros Hdate. rewrite Hm in Hdate.
    apply cache_is_fresh_iff_date in Hdate. rewrite Hdate in Hfresh.
    destruct (load_data_smart_miss e2 p2 Hmem)
      as [(_ & Hex' & _)
         |[(Ho & _ & _ & (c & Hc & Hm') & _ & Hg' & Hs & _)
          |(_ & Hfresh' & _)]];
      [congruence| |congruence].
    assert (c = d) by congruence. subst c.
    repeat split; congruence.
  - intros Hdate.
    assert (Hstale : persisted_is_fresh e2 p2 = false).
    { rewrite Hfresh.
      destruct (cache_is_fresh (c_timestamps d) (today_utc e2)) eqn:Hf;
        [|reflexivity].
      apply cache_is_fresh_iff_date in Hf. rewrite Hm in Hdate.
      contradiction. }
    destruct (load_data_smart_miss e2 p2 Hmem)
      as [(_ & Hex' & _)
         |[(_ & _ & Hfresh' & _)|(_ & _ & p0 & Hr & _ & _ & Hs & _)]];
      [congruence|congruence|].
    pose proof (refresh_from_bigquery_cases e2 p0) as (Hs' & _).
    rewrite <- Hr in Hs'. congruence.
Qed.

Lemma uploaded_snapshot_reused_iff_dated_today_witness :
  load_data_smart env_ok fresh_process = (Returned, loaded_process)
  /\ sweeps loaded_process <> sweeps fresh_process
  /\ generated_date (mem loaded_process) = Some (today_utc env_upload_fails)
  /\ fst (load_data_smart env_upload_fails
            {| mem := initial_globals; gcs := gcs loaded_process; io := [] |})
     = Returned
  /\ mem (snd (load_data_smart env_upload_fails
                 {| mem := initial_globals; gcs := gcs loaded_process;
                    io := [] |}))
     = mem loaded_process.
Proof.
  assert (Hsw : sweeps loaded_process <> sweeps fresh_process)
    by (vm_compute; discriminate).
  destruct (uploaded_snapshot_reused_iff_dated_today
              env_ok env_upload_fails fresh_process loaded_process
              {| mem := initial_globals; gcs := gcs loaded_process; io := [] |}
              eq_refl Hsw eq_refl eq_refl eq_refl eq_refl)
    as (Hreuse & _).
  destruct (Hreuse eq_refl) as (Ho & Hm & _).
  split; [reflexivity|]. split; [exact Hsw|]. split; [reflexivity|].
  split; [exact Ho|exact Hm].
Defined.

(** A dict in the bucket that is dated today and lacks its ['kpi'] entry:
    the call has assigned [df_main] when the lookup raises, and goes on to
    the warehouse.  If the warehouse answers, the call returns with the
    warehouse's snapshot in memory and in the bucket; if it does not, the
    process exits with [df_main] set and the other globals as they were. *)
Example snapshot_without_kpi_entry :
  persisted_read_fails env_ok process_with_partial_blob = true
  /\ fst (load_data_smart env_ok process_with_partial_blob) = Returned
  /\ mem (snd (load_data_smart env_ok process_with_partial_blob))
     = globals_of (demo_snapshot today)
  /\ gcs (snd (load_data_smart env_ok process_with_partial_blob))
     = Some (Pickled (demo_snapshot today))
  /\ fst (load_data_smart env_warehouse_down process_with_partial_blob)
     = Exited 1
  /\ mem (snd (load_data_smart env_warehouse_down process_with_partial_blob))
     = {| df_main := Some (demo_frame today); df_kpi := None;
          timestamps := []; search_options := [] |}.
Proof.
  split; [|split; [|split; [|split; [|split]]]]; vm_compute; reflexivity.
Qed.
(** ** Further facts: what the warehouse's answers become (lines 70-81) *)

Lemma apply_json_loads_columns (df df' : dataframe) :
  apply_json_loads df = Some df' ->
  map Object_Name df' = map Object_Name df
  /\ map Owner df' = map Owner df
  /\ map Orbit df' = map Orbit df
  /\ map Avg_Altitude df' = map Avg_Altitude df.
Proof.
  revert df'. induction df as [|r df IH]; simpl; intros df' H.
  - inversion H; subst. repeat split.
  - destruct (json_loads (Trajectory r)) as [c|]; [|discriminate].
    destruct (apply_json_loads df) as [rest|]; [|discriminate].
    inversion H; subst. simpl.
    destruct (IH rest eq_refl) as (H1 & H2 & H3 & H4).
    now rewrite H1, H2, H3, H4.
Qed.

Lemma to_numeric_coerce_columns (df : dataframe) :
  map Object_Name (to_numeric_coerce df) = map Object_Name df
  /\ map Owner (to_numeric_coerce df) = map Owner df
  /\ map Orbit (to_numeric_coerce df) = map Orbit df
  /\ map Trajectory (to_numeric_coerce df) = map Trajectory df
  /\ Forall (fun r => Avg_Altitude r <> None) (to_numeric_coerce df).
Proof.
  unfold to_numeric_coerce. rewrite !map_map. simpl.
  repeat split. apply Forall_forall. intros r Hr.
  apply in_map_iff in Hr. destruct Hr as (r0 & <- & _). simpl.
  destruct (Avg_Altitude r0); discriminate.
Qed.

Lemma to_datetime_all_parsed (raw : list (option datetime))
  (ts : list datetime) :
  to_datetime raw = Some ts -> raw = map Some ts.
Proof.
  revert ts. induction raw as [|[t|] raw IH]; simpl; intros ts H.
  - inversion H. reflexivity.
  - destruct (to_datetime raw) as [ts'|]; [|discriminate].
    inversion H; subst. simpl. now rewrite (IH ts' eq_refl).
  - discriminate.
Qed.

(** X6. When the warehouse's answers make a snapshot, its frame has the
    warehouse's rows, in their order, with their names, owners and orbits;
    every altitude in it is a number; its KPI frame is the warehouse's; and
    its timestamps are those of the points of the first row's trajectory,
    one for each point. *)
Theorem warehouse_snapshot_keeps_rows
  (e : env) (df : dataframe) (d : cached_data) :
  gbq_main e = Some df ->
  warehouse_snapshot e = Some d ->
  map Object_Name (c_main d) = map Object_Name df
  /\ map Owner (c_main d) = map Owner df
  /\ map Orbit (c_main d) = map Orbit df
  /\ Forall (fun r => Avg_Altitude r <> None) (c_main d)
  /\ gbq_kpi e = Some (c_kpi d)
  /\ exists pts,
       option_map Trajectory (hd_error (c_main d)) = Some (TrajectoryList pts)
       /\ map pt_timestamp pts = map Some (c_timestamps d)
       /\ length (c_timestamps d) = length pts.
Proof.
  intros Hdf Hw. unfold warehouse_snapshot in Hw. rewrite Hdf in Hw.
  destruct df as [|first rest]; [discriminate|].
  destruct (if is_str _ then _ else _) as [df'|] eqn:Hdec; [|discriminate].
  destruct (gbq_kpi e) as [kpi|]; [|discriminate].
  destruct (timestamps_raw (to_numeric_coerce df')) as [raw|] eqn:Hraw;
    [|discriminate].
  destruct (to_datetime raw) as [ts|] eqn:Hts; [|discriminate].
  inversion Hw; subst d; cbn [c_main c_kpi c_timestamps]. clear Hw.
  destruct (to_numeric_coerce_columns df') as (N1 & N2 & N3 & _ & N5).
  assert (Hcols : map Object_Name df' = map Object_Name (first :: rest)
                  /\ map Owner df' = map Owner (first :: rest)
                  /\ map Orbit df' = map Orbit (first :: rest)).
  { destruct (is_str (Trajectory first)).
    - destruct (apply_json_loads_columns _ _ Hdec) as (H1 & H2 & H3 & _).
      now repeat split.
    - inversion Hdec; subst. now repeat split. }
  destruct Hcols as (C1 & C2 & C3).
  split; [congruence|]. split; [congruence|]. split; [congruence|].
  split; [exact N5|]. split; [reflexivity|].
  unfold timestamps_raw in Hraw.
  destruct (to_numeric_coerce df') as [|r0 rs]; [discriminate|].
  destruct (Trajectory r0) as [s|pts] eqn:Ht; [discriminate|].
  inversion Hraw; subst raw. exists pts. cbn [hd_error option_map]. rewrite Ht.
  pose proof (to_datetime_all_parsed _ _ Hts) as Hall.
  split; [reflexivity|]. split; [exact Hall|].
  apply (f_equal (@length _)) in Hall. now rewrite !length_map in Hall.
Qed.

Lemma warehouse_snapshot_keeps_rows_witness :
  gbq_main env_empty_track = Some frame_with_empty_track
  /\ warehouse_snapshot env_empty_track
     = Some (mk_cached_data frame_with_empty_track demo_kpi [])
  /\ map Object_Name (c_main (mk_cached_data frame_with_empty_track
                                              demo_kpi []))
     = map Object_Name frame_with_empty_track
  /\ length (c_timestamps (mk_cached_data frame_with_empty_track
                                          demo_kpi [])) = 0%nat.
Proof.
  destruct (warehouse_snapshot_keeps_rows
              env_empty_track frame_with_empty_track
              (mk_cached_data frame_with_empty_track demo_kpi [])
              eq_refl eq_refl)
    as (Hn & _ & _ & _ & _ & pts & _ & _ & Hl).
  split; [reflexivity|]. split; [reflexivity|].
  split; [exact Hn|reflexivity].
Defined.

(** ** Further facts: the map (lines 272-338) *)

(** The loop over the rows, as a filter and six maps. *)
Lemma plot_rows_fields (i : Z) (sn : option string) (df : dataframe)
  (m0 : markers) :
  lats (fold_left (plot_row i sn) df m0)
  = lats m0 ++ map (marker_lat i) (filter (plotted i sn) df)
  /\ lons (fold_left (plot_row i sn) df m0)
     = lons m0 ++ map (marker_lon i) (filter (plotted i sn) df)
  /\ colors (fold_left (plot_row i sn) df m0)
     = colors m0 ++ map (marker_color sn) (filter (plotted i sn) df)
  /\ sizes (fold_left (plot_row i sn) df m0)
     = sizes m0 ++ map (fun _ => marker_size sn) (filter (plotted i sn) df)
  /\ opacities (fold_left (plot_row i sn) df m0)
     = opacities m0
       ++ map (fun _ => marker_opacity sn) (filter (plotted i sn) df)
  /\ texts (fold_left (plot_row i sn) df m0)
     = texts m0 ++ map (marker_text sn) (filter (plotted i sn) df).
Proof.
  revert m0. induction df as [|r df IH]; intros m0; simpl.
  - now rewrite !app_nil_r.
  - destruct (IH (plot_row i sn m0 r)) as (H1 & H2 & H3 & H4 & H5 & H6).
    rewrite H1, H2, H3, H4, H5, H6. clear.
    unfold plot_row, plotted, marker_lat, marker_lon, marker_color,
      marker_size, marker_opacity, marker_text.
    destruct (truthy sn && differs (Object_Name r) sn) eqn:Hskip; simpl;
      [repeat split|].
    destruct (point_at r i) as [pt|] eqn:Hpt; simpl; [|repeat split].
    rewrite Hpt.
    destruct (truthy sn); simpl; rewrite <- !app_assoc; repeat split.
Qed.

(** What an answer of [update_map] tells: the loader, if it was called,
    returned; the index used has a timestamp; and the markers are those of
    the rows of [df_main] that the loop plots. *)
Lemma update_map_answer (now_index : option Z) (e : env)
  (time_index : option Z) (sn : option string) (p p' : process)
  (m : markers) (time_str : string) :
  update_map now_index e time_index sn p = (Answers (m, time_str), p') ->
  exists asked df ts,
    match time_index with Some i => Some i | None => now_index end
    = Some asked
    /\ ensure_loaded e p = (Returned, p')
    /\ df_main (mem p') = Some df
    /\ py_index (timestamps (mem p'))
                (effective_index (timestamps (mem p')) asked) = Some ts
    /\ time_str = strftime_HM_UTC ts
    /\ m = fold_left
             (plot_row (effective_index (timestamps (mem p')) asked) sn)
             df no_markers.
Proof.
  unfold update_map. intros H.
  destruct (match time_index with Some i => Some i | None => now_index end)
    as [asked|]; [|discriminate].
  destruct (ensure_loaded e p) as [[| |code] q] eqn:Hload; try discriminate.
  destruct (py_index _ _) as [ts|] eqn:Hts; [|discriminate].
  destruct (df_main (mem q)) as [df|] eqn:Hdf; [|discriminate].
  inversion H; subst. exists asked, df, ts. repeat split; assumption.
Qed.

Lemma py_index_map {A B : Type} (f : A -> B) (l : list A) (i : Z) :
  py_index (map f l) i = option_map f (py_index l i).
Proof.
  unfold py_index. rewrite length_map.
  destruct (0 <=? i); [apply nth_error_map|].
  destruct (0 <=? Z.of_nat (length l) + i); [apply nth_error_map|reflexivity].
Qed.

(** On a row that has its columns and whose points have both keys, the
    appends of one turn are all reached or none is. *)
Lemma plot_raw_row_of_row (i : Z) (sn : option string) (m : markers)
  (r : row) :
  plot_raw_row i sn m (raw_of_row r) = plot_row i sn m r.
Proof.
  unfold plot_raw_row, plot_row, point_at, raw_of_row;
    cbn [raw_Object_Name raw_Owner raw_Orbit raw_Trajectory].
  destruct (truthy sn && differs (Object_Name r) sn); [reflexivity|].
  destruct (Trajectory r) as [s|pts]; [reflexivity|].
  rewrite py_index_map.
  destruct (py_index pts i) as [pt|]; [|reflexivity].
  simpl. destruct (truthy sn); reflexivity.
Qed.

Lemma plot_raw_rows_of_rows (i : Z) (sn : option string) (df : dataframe)
  (m0 : markers) :
  fold_left (plot_raw_row i sn) (map raw_of_row df) m0
  = fold_left (plot_row i sn) df m0.
Proof.
  revert m0. induction df as [|r df IH]; intros m0; simpl; [reflexivity|].
  now rewrite plot_raw_row_of_row, IH.
Qed.

(** One turn keeps the lists in the order of the appends and adds at most
    one latitude. *)
Lemma plot_raw_row_append_order (i : Z) (sn : option string) (m : markers)
  (r : raw_row) (n : nat) :
  lengths_in_append_order m n ->
  lengths_in_append_order (plot_raw_row i sn m r) (S n).
Proof.
  unfold lengths_in_append_order. intros (H1 & H2 & H3 & H4 & H5 & H6).
  unfold plot_raw_row.
  destruct (truthy sn && differs (raw_Object_Name r) sn);
    [repeat split; lia|].
  destruct (raw_Trajectory r) as [pts|]; [|repeat split; lia].
  destruct (py_index pts i) as [pt|]; [|repeat split; lia].
  destruct (raw_lat pt) as [la|]; [|repeat split; lia].
  destruct (raw_lon pt) as [lo|];
    [|simpl; rewrite ?length_app; simpl; repeat split; lia].
  destruct (truthy sn);
    [simpl; rewrite ?length_app; simpl; repeat split; lia|].
  destruct (raw_Orbit r) as [orbit|];
    [|simpl; rewrite ?length_app; simpl; repeat split; lia].
  destruct (raw_Owner r) as [owner|];
    simpl; rewrite ?length_app; simpl; repeat split; lia.
Qed.

Lemma plot_raw_rows_append_order (i : Z) (sn : option string)
  (rows : list raw_row) (m0 : markers) (n : nat) :
  lengths_in_append_order m0 n ->
  lengths_in_append_order (fold_left (plot_raw_row i sn) rows m0)
                          (n + length rows).
Proof.
  revert m0 n. induction rows as [|r rows IH]; intros m0 n H; simpl.
  - now rewrite Nat.add_0_r.
  - rewrite <- Nat.add_succ_comm. apply IH.
    now apply plot_raw_row_append_order.
Qed.

(** A point without its ['lon'] entry leaves a latitude without a
    longitude, a colour or a text. *)
Example point_without_lon_leaves_lists_apart :
  fold_left (plot_raw_row 0 None) rows_without_lon no_markers
  = {| lats := [51.5%float]; lons := []; colors := []; sizes := [];
       opacities := []; texts := [] |}.
Proof. reflexivity. Qed.

(** X7. The loop of [update_map] appends to its six lists one after
    another, and a step that raises ends the turn: on any rows, at any
    index and with any search, no list is longer than the one appended to
    before it ([texts], [opacities] = [sizes] = [colors], [lons], [lats],
    in growing length), and [lats] has at most one entry per row.  When
    [update_map] answers on a frame that has the columns and whose points
    have both keys, its markers are those of that loop at the index used
    (the index asked for, or 0 when that is past the timestamps), and the
    six lists all have the length of the rows that pass the search and have
    a point at that index. *)
Theorem update_map_marker_lists_lengths :
  (forall (i : Z) (sn : option string) (rows : list raw_row),
      lengths_in_append_order
        (fold_left (plot_raw_row i sn) rows no_markers) (length rows))
  /\ (forall (now_index : option Z) (e : env) (time_index : option Z)
             (sn : option string) (p p' : process) (m : markers)
             (time_str : string),
         update_map now_index e time_index sn p = (Answers (m, time_str), p') ->
         exists asked df,
           match time_index with Some i => Some i | None => now_index end
           = Some asked
           /\ df_main (mem p') = Some df
           /\ m = fold_left
                    (plot_raw_row
                       (effective_index (timestamps (mem p')) asked) sn)
                    (map raw_of_row df) no_markers
           /\ length (lats m)
              = length (filter (plotted (effective_index
                                           (timestamps (mem p')) asked) sn)
                               df)
           /\ length (lons m) = length (lats m)
           /\ length (colors m) = length (lats m)
           /\ length (sizes m) = length (lats m)
           /\ length (opacities m) = length (lats m)
           /\ length (texts m) = length (lats m)).
Proof.
  split.
  - intros i sn rows.
    apply (plot_raw_rows_append_order i sn rows no_markers 0).
    unfold lengths_in_append_order. simpl. repeat split; lia.
  - intros now_index e time_index sn p p' m time_str H.
    destruct (update_map_answer _ _ _ _ _ _ _ _ H)
      as (asked & df & ts & Hasked & _ & Hdf & _ & _ & ->).
    exists asked, df. split; [exact Hasked|]. split; [exact Hdf|].
    split; [now rewrite plot_raw_rows_of_rows|].
    destruct (plot_rows_fields
                (effective_index (timestamps (mem p')) asked) sn df no_markers)
      as (H1 & H2 & H3 & H4 & H5 & H6).
    rewrite H1, H2, H3, H4, H5, H6. simpl. rewrite !length_map.
    repeat split.
Qed.

Lemma update_map_marker_lists_lengths_witness :
  update_map None env_ok (Some 1) None loaded_process
  = (Answers (markers_at_1, "00:10 UTC"%string), loaded_process)
  /\ markers_at_1
     = fold_left (plot_raw_row 1 None)
                 (map raw_of_row (demo_frame today)) no_markers
  /\ length (lons markers_at_1) = length (lats markers_at_1)
  /\ length (texts markers_at_1) = length (lats markers_at_1)
  /\ lengths_in_append_order
       (fold_left (plot_raw_row 0 None) rows_without_lon no_markers) 1.
Proof.
  destruct update_map_marker_lists_lengths as (Hraw & Hmap).
  destruct (Hmap None env_ok (Some 1) None loaded_process loaded_process
              markers_at_1 "00:10 UTC"%string eq_refl)
    as (asked & df & _ & _ & _ & _ & H1 & _ & _ & _ & H5).
  split; [reflexivity|]. split; [reflexivity|].
  split; [exact H1|]. split; [exact H5|].
  exact (Hraw 0 None rows_without_lon).
Defined.

Lemma truthy_nonempty (s : string) :
  s <> EmptyString -> truthy (Some s) = true.
Proof. destruct s; [congruence|reflexivity]. Qed.

Lemma filter_length_mono {A : Type} (f g : A -> bool) (l : list A) :
  (forall x, f x = true -> g x = true) ->
  (length (filter f l) <= length (filter g l))%nat.
Proof.
  intros Hfg. induction l as [|x l IH]; simpl; [lia|].
  destruct (f x) eqn:Hf.
  - rewrite (Hfg x Hf). simpl. lia.
  - destruct (g x); simpl; lia.
Qed.

(** X8. With a search name that is not empty, every marker of the answer
    is the searched object's: each text is the target sign followed by that
    name, each colour is gold, each size 20 and each opacity 1, and there
    are at most as many markers as rows of that name. *)
Theorem update_map_search_shows_only_that_object
  (now_index : option Z) (e : env) (time_index : option Z) (s : string)
  (p p' : process) (m : markers) (time_str : string) :
  s <> EmptyString ->
  update_map now_index e time_index (Some s) p = (Answers (m, time_str), p') ->
  Forall (eq ("🎯 " ++ s)%string) (texts m)
  /\ Forall (eq "#FFD700"%string) (colors m)
  /\ Forall (eq 20) (sizes m)
  /\ Forall (eq 1%float) (opacities m)
  /\ exists df,
       df_main (mem p') = Some df
       /\ (length (texts m)
           <= length (filter (fun r => String.eqb (Object_Name r) s) df))%nat.
Proof.
  intros Hs H. pose proof (truthy_nonempty s Hs) as Ht.
  destruct (update_map_answer _ _ _ _ _ _ _ _ H)
    as (asked & df & ts & _ & _ & Hdf & _ & _ & ->).
  set (i := effective_index (timestamps (mem p')) asked).
  destruct (plot_rows_fields i (Some s) df no_markers)
    as (_ & _ & H3 & H4 & H5 & H6).
  rewrite H3, H4, H5, H6. simpl app.
  assert (Hname : forall r, plotted i (Some s) r = true ->
                            String.eqb (Object_Name r) s = true).
  { intros r Hr. unfold plotted in Hr. rewrite Ht in Hr. simpl in Hr.
    apply andb_prop in Hr. destruct Hr as (Hr & _).
    now destruct (String.eqb (Object_Name r) s). }
  split; [|split; [|split; [|split]]].
  - apply Forall_forall. intros x Hx. apply in_map_iff in Hx.
    destruct Hx as (r & <- & Hr). apply filter_In in Hr.
    destruct Hr as (_ & Hr). apply Hname, String.eqb_eq in Hr.
    unfold marker_text. now rewrite Ht, Hr.
  - apply Forall_forall. intros x Hx. apply in_map_iff in Hx.
    destruct Hx as (r & <- & _). unfold marker_color. now rewrite Ht.
  - apply Forall_forall. intros x Hx. apply in_map_iff in Hx.
    destruct Hx as (r & <- & _). unfold marker_size. now rewrite Ht.
  - apply Forall_forall. intros x Hx. apply in_map_iff in Hx.
    destruct Hx as (r & <- & _). unfold marker_opacity. now rewrite Ht.
  - exists df. split; [exact Hdf|].
    rewrite length_map. now apply filter_length_mono.
Qed.

Lemma update_map_search_shows_only_that_object_witness :
  "ISS (ZARYA)"%string <> EmptyString
  /\ update_map None env_ok (Some 1) (Some "ISS (ZARYA)"%string)
                loaded_process
     = (Answers (markers_of_search, "00:10 UTC"%string), loaded_process)
  /\ Forall (eq "🎯 ISS (ZARYA)"%string) (texts markers_of_search)
  /\ Forall (eq "#FFD700"%string) (colors markers_of_search).
Proof.
  assert (Hs : "ISS (ZARYA)"%string <> EmptyString) by discriminate.
  destruct (update_map_search_shows_only_that_object
              None env_ok (Some 1) "ISS (ZARYA)"%string
              loaded_process loaded_process
              markers_of_search "00:10 UTC"%string Hs eq_refl)
    as (H1 & H2 & _).
  split; [exact Hs|]. split; [reflexivity|]. split; [exact H1|exact H2].
Defined.

(** X9. Without a search name (none, or the empty string) the answer has
    one marker for every row of [df_main] whose trajectory has a point at
    the index used, in the order of the rows: its text is the row's name
    with the owner in brackets and its colour the one of the row's orbit.
    A row without such a point is left out, and nothing reports it. *)
Theorem update_map_without_search_plots_rows_in_order
  (now_index : option Z) (e : env) (time_index : option Z)
  (sn : option string) (p p' : process) (m : markers) (time_str : string) :
  truthy sn = false ->
  update_map now_index e time_index sn p = (Answers (m, time_str), p') ->
  exists asked df,
    match time_index with Some i => Some i | None => now_index end
    = Some asked
    /\ df_main (mem p') = Some df
    /\ texts m
       = map (fun r => (Object_Name r ++ " (" ++ Owner r ++ ")")%string)
             (filter (fun r =>
                        match point_at r (effective_index
                                            (timestamps (mem p')) asked) with
                        | Some _ => true
                        | None => false
                        end) df)
    /\ colors m
       = map (fun r => orbit_color (Orbit r))
             (filter (fun r =>
                        match point_at r (effective_index
                                            (timestamps (mem p')) asked) with
                        | Some _ => true
                        | None => false
                        end) df)
    /\ Forall (fun c => In c ["#10b981"; "#3b82f6"; "#ef4444"; "#eab308"]%string)
              (colors m).
Proof.
  intros Ht H.
  destruct (update_map_answer _ _ _ _ _ _ _ _ H)
    as (asked & df & ts & Hasked & _ & Hdf & _ & _ & ->).
  exists asked, df. split; [exact Hasked|]. split; [exact Hdf|].
  set (i := effective_index (timestamps (mem p')) asked).
  destruct (plot_rows_fields i sn df no_markers) as (_ & _ & H3 & _ & _ & H6).
  rewrite H3, H6. simpl app.
  assert (Hf : filter (plotted i sn) df
               = filter (fun r => match point_at r i with
                                  | Some _ => true
                                  | None => false
                                  end) df).
  { apply filter_ext. intros r. unfold plotted. now rewrite Ht. }
  rewrite Hf. unfold marker_text, marker_color. rewrite Ht.
  split; [reflexivity|]. split; [reflexivity|].
  apply Forall_forall. intros c Hc. apply in_map_iff in Hc.
  destruct Hc as (r & <- & _). unfold orbit_color.
  destruct (String.eqb (Orbit r) "LEO"); [simpl; tauto|].
  destruct (String.eqb (Orbit r) "MEO"); [simpl; tauto|].
  destruct (String.eqb (Orbit r) "GEO"); simpl; tauto.
Qed.

Lemma update_map_without_search_plots_rows_in_order_witness :
  truthy (Some EmptyString) = false
  /\ update_map None env_ok (Some 1) (Some EmptyString) loaded_process
     = (Answers (markers_at_1, "00:10 UTC"%string), loaded_process)
  /\ exists asked df,
       Some 1 = Some asked
       /\ df_main (mem loaded_process) = Some df
       /\ texts markers_at_1
          = map (fun r => (Object_Name r ++ " (" ++ Owner r ++ ")")%string)
                (filter (fun r =>
                           match point_at r
                                   (effective_index
                                      (timestamps (mem loaded_process))
                                      asked) with
                           | Some _ => true
                           | None => false
                           end) df).
Proof.
  destruct (update_map_without_search_plots_rows_in_order
              None env_ok (Some 1) (Some EmptyString)
              loaded_process loaded_process
              markers_at_1 "00:10 UTC"%string eq_refl eq_refl)
    as (asked & df & Ha & Hdf & Htx & _).
  split; [reflexivity|]. split; [reflexivity|].
  exists asked, df. split; [exact Ha|]. split; [exact Hdf|exact Htx].
Defined.

Lemma effective_index_past_end (ts : list datetime) (i : Z) :
  Z.of_nat (length ts) <= i ->
  effective_index ts i = effective_index ts 0.
Proof.
  intros Hi. unfold effective_index.
  destruct (Z.leb_spec (Z.of_nat (length ts)) i); [|lia].
  now destruct (Z.of_nat (length ts) <=? 0).
Qed.

(** X10. An index at or past the number of timestamps in memory (once the
    loader has been called, if it had to be) is treated as index 0: the
    answer, or the failure, is that of index 0. *)
Theorem update_map_index_past_end_counts_as_zero
  (now_index : option Z) (e : env) (i : Z) (sn : option string)
  (p : process) :
  Z.of_nat (length (timestamps (mem (snd (ensure_loaded e p))))) <= i ->
  update_map now_index e (Some i) sn p = update_map now_index e (Some 0) sn p.
Proof.
  intros Hi. unfold update_map.
  destruct (ensure_loaded e p) as [[| |code] q]; simpl in *; try reflexivity.
  now rewrite (effective_index_past_end _ i Hi).
Qed.

Lemma update_map_index_past_end_counts_as_zero_witness :
  Z.of_nat (length (timestamps
                      (mem (snd (ensure_loaded env_ok loaded_process)))))
  <= 500
  /\ update_map None env_ok (Some 500) None loaded_process
     = update_map None env_ok (Some 0) None loaded_process.
Proof.
  assert (Hi : Z.of_nat (length (timestamps
                 (mem (snd (ensure_loaded env_ok loaded_process))))) <= 500)
    by (vm_compute; discriminate).
  split; [exact Hi|].
  exact (update_map_index_past_end_counts_as_zero
           None env_ok 500 None loaded_process Hi).
Defined.

(** With an entry in memory that has no timestamp, no index that is not
    negative can be shown. *)
Lemma update_map_without_timestamps (now_index : option Z) (e : env) (i : Z)
  (sn : option string) (p : process) :
  df_main (mem p) <> None ->
  timestamps (mem p) = [] ->
  0 <= i ->
  fst (update_map now_index e (Some i) sn p) = Fails.
Proof.
  intros Hmem Hts Hi. unfold update_map, ensure_loaded.
  destruct (df_main (mem p)) as [df|]; [|contradiction].
  rewrite Hts. unfold py_index, effective_index. simpl.
  destruct (Z.leb_spec 0 i); [reflexivity|lia].
Qed.

(** X11. While an entry is in memory, [update_map] with an index that is
    not negative leaves the process as it is (the loader is not called,
    nothing is read or written, nothing logged) and never exits; and it
    fails exactly when the entry has no timestamp. *)
Theorem update_map_with_entry_touches_nothing
  (now_index : option Z) (e : env) (i : Z) (sn : option string)
  (p : process) :
  df_main (mem p) <> None ->
  0 <= i ->
  snd (update_map now_index e (Some i) sn p) = p
  /\ (forall code, fst (update_map now_index e (Some i) sn p) <> Exits code)
  /\ (fst (update_map now_index e (Some i) sn p) = Fails
      <-> timestamps (mem p) = []).
Proof.
  intros Hmem Hi. unfold update_map, ensure_loaded.
  destruct (df_main (mem p)) as [df|] eqn:Hdf; [|contradiction].
  unfold py_index, effective_index.
  destruct (timestamps (mem p)) as [|t0 ts] eqn:Hts.
  - simpl. destruct (Z.leb_spec 0 i); [|lia]. simpl.
    repeat split; discriminate.
  - set (n := Z.of_nat (length (t0 :: ts))).
    assert (Hn : 0 < n) by (unfold n; simpl length; lia).
    set (j := if n <=? i then 0 else i).
    assert (Hj : 0 <= j < n).
    { unfold j. destruct (Z.leb_spec n i); lia. }
    destruct (Z.leb_spec 0 j); [|lia].
    destruct (nth_error (t0 :: ts) (Z.to_nat j)) as [t|] eqn:Hnth.
    + rewrite Hdf. simpl. repeat split; try discriminate.
    + apply nth_error_None in Hnth. unfold n in Hj. lia.
Qed.

Lemma update_map_with_entry_touches_nothing_witness :
  df_main (mem loaded_process) <> None
  /\ 0 <= 1
  /\ snd (update_map None env_bucket_down (Some 1) None loaded_process)
     = loaded_process
  /\ fst (update_map None env_bucket_down (Some 1) None loaded_process)
     = Answers (markers_at_1, "00:10 UTC"%string).
Proof.
  assert (Hm : df_main (mem loaded_process) <> None) by discriminate.
  assert (Hi : 0 <= 1) by lia.
  destruct (update_map_with_entry_touches_nothing
              None env_bucket_down 1 None loaded_process Hm Hi)
    as (Hp & _).
  split; [exact Hm|]. split; [exact Hi|]. split; [exact Hp|reflexivity].
Defined.

(** X12. A catalog whose first row has an empty trajectory is accepted by
    the loader, and then the map cannot be drawn: once a call has returned
    after fetching such a catalog from the warehouse, [update_map] fails
    for every index that is not negative, whatever the search. *)
Theorem empty_first_trajectory_breaks_the_map
  (e e' : env) (p p' : process) (r : row) (rest : dataframe)
  (now_index : option Z) (i : Z) (sn : option string) :
  gbq_main e = Some (r :: rest) ->
  Trajectory r = TrajectoryList [] ->
  load_data_smart e p = (Returned, p') ->
  sweeps p' <> sweeps p ->
  0 <= i ->
  timestamps (mem p') = []
  /\ fst (update_map now_index e' (Some i) sn p') = Fails.
Proof.
  intros Hdf Htraj Hcall Hsw Hi.
  destruct (load_data_smart_recomputed e p p' Hcall Hsw) as (d & Hw & Hm & _).
  assert (Hts : timestamps (mem p') = []).
  { rewrite Hm. unfold warehouse_snapshot in Hw. rewrite Hdf in Hw.
    rewrite Htraj in Hw. simpl in Hw. rewrite Htraj in Hw. simpl in Hw.
    destruct (gbq_kpi e); [|discriminate].
    inversion Hw; subst. reflexivity. }
  split; [exact Hts|].
  apply update_map_without_timestamps;
    [exact (load_data_smart_returned_entry e p p' Hcall)|exact Hts|exact Hi].
Qed.

Lemma empty_first_trajectory_breaks_the_map_witness :
  load_data_smart env_empty_track fresh_process
  = (Returned, snd (load_data_smart env_empty_track fresh_process))
  /\ timestamps (mem (snd (load_data_smart env_empty_track fresh_process)))
     = []
  /\ fst (update_map None env_ok (Some 0) None
            (snd (load_data_smart env_empty_track fresh_process))) = Fails.
Proof.
  assert (Hsw : sweeps (snd (load_data_smart env_empty_track fresh_process))
                <> sweeps fresh_process) by (vm_compute; discriminate).
  assert (Hi : 0 <= 0) by lia.
  destruct (empty_first_trajectory_breaks_the_map
              env_empty_track env_ok fresh_process
              (snd (load_data_smart env_empty_track fresh_process))
              (mk_row "ISS (ZARYA)" "ISS" "LEO" (TrajectoryList [])
                      (Some 420.5%float))
              [mk_row "NOAA 19" "US" "LEO" (TrajectoryList (demo_points today))
                      (Some 850%float)]
              None 0 None eq_refl eq_refl eq_refl Hsw Hi)
    as (Hts & Hf).
  split; [reflexivity|]. split; [exact Hts|exact Hf].
Defined.

Lemma filter_all {A : Type} (f : A -> bool) (l : list A) :
  Forall (fun x => f x = true) l -> filter f l = l.
Proof.
  induction 1 as [|x l Hx _ IH]; simpl; [reflexivity|].
  now rewrite Hx, IH.
Qed.

(** X16. When every row of [df_main] has a decoded trajectory at least as
    long as the list of timestamps, an answer of [update_map] to an index
    that is not negative, without a search, has a marker for every row:
    no object is left out at any position of the slider. *)
Theorem update_map_plots_every_row_of_full_trajectories
  (now_index : option Z) (e : env) (i : Z) (sn : option string)
  (p p' : process) (m : markers) (time_str : string) (df : dataframe) :
  truthy sn = false ->
  0 <= i ->
  update_map now_index e (Some i) sn p = (Answers (m, time_str), p') ->
  df_main (mem p') = Some df ->
  Forall (fun r => exists pts,
            Trajectory r = TrajectoryList pts
            /\ (length (timestamps (mem p')) <= length pts)%nat) df ->
  length (texts m) = length df
  /\ texts m
     = map (fun r => (Object_Name r ++ " (" ++ Owner r ++ ")")%string) df.
Proof.
  intros Ht Hi H Hdf Hfull.
  destruct (update_map_answer _ _ _ _ _ _ _ _ H)
    as (asked & df' & ts & Hasked & _ & Hdf' & Hts & _ & ->).
  inversion Hasked; subst asked. clear Hasked.
  assert (df' = df) by congruence. subst df'.
  set (j := effective_index (timestamps (mem p')) i) in *.
  assert (Hj : 0 <= j /\ (Z.to_nat j < length (timestamps (mem p')))%nat).
  { assert (H0 : 0 <= j)
      by (unfold j, effective_index;
          destruct (Z.of_nat (length (timestamps (mem p'))) <=? i); lia).
    split; [exact H0|].
    unfold py_index in Hts. destruct (Z.leb_spec 0 j); [|lia].
    apply nth_error_Some. congruence. }
  destruct Hj as (Hj0 & Hjn).
  destruct (plot_rows_fields j sn df no_markers) as (_ & _ & _ & _ & _ & H6).
  rewrite H6. simpl app.
  assert (Hall : filter (plotted j sn) df = df).
  { apply filter_all. apply Forall_forall. intros r Hr.
    rewrite Forall_forall in Hfull.
    destruct (Hfull r Hr) as (pts & Hpts & Hlen).
    unfold plotted, point_at, py_index. rewrite Ht, Hpts. simpl.
    destruct (Z.leb_spec 0 j); [|lia].
    destruct (nth_error pts (Z.to_nat j)) eqn:Hn; [reflexivity|].
    apply nth_error_None in Hn. lia. }
  rewrite Hall, length_map. split; [reflexivity|].
  unfold marker_text. now rewrite Ht.
Qed.

Lemma update_map_plots_every_row_of_full_trajectories_witness :
  update_map None env_ok (Some 1) None loaded_process
  = (Answers (markers_at_1, "00:10 UTC"%string), loaded_process)
  /\ df_main (mem loaded_process) = Some (demo_frame today)
  /\ length (texts markers_at_1) = length (demo_frame today).
Proof.
  assert (Hi : 0 <= 1) by lia.
  assert (Hfull : Forall (fun r => exists pts,
                    Trajectory r = TrajectoryList pts
                    /\ (length (timestamps (mem loaded_process))
                        <= length pts)%nat) (demo_frame today)).
  { constructor; [|constructor].
    exists (demo_points today). split; [reflexivity|]. simpl. lia. }
  destruct (update_map_plots_every_row_of_full_trajectories
              None env_ok 1 None loaded_process loaded_process
              markers_at_1 "00:10 UTC"%string (demo_frame today)
              eq_refl Hi eq_refl eq_refl Hfull)
    as (Hlen & _).
  split; [reflexivity|]. split; [reflexivity|exact Hlen].
Defined.
(** ** From [get_position] to the map: lookup by position *)

Lemma to_datetime_parsed (ts : list datetime) :
  to_datetime (map Some ts) = Some ts.
Proof.
  induction ts as [|t ts IH]; simpl; [reflexivity|now rewrite IH].
Qed.

Lemma py_index_nat {A : Type} (l : list A) (i : nat) :
  py_index l (Z.of_nat i) = nth_error l i.
Proof.
  unfold py_index. destruct (Z.leb_spec 0 (Z.of_nat i)); [|lia].
  now rewrite Nat2Z.id.
Qed.

Lemma apply_json_loads_decodes {S : Type} (f : S -> list traj_point)
  (df df' : dataframe) (sats : list S) :
  Forall2 (fun r sat => Trajectory r = TrajectoryStr (Some (f sat))) df sats ->
  apply_json_loads df = Some df' ->
  Forall2 (fun r sat => Trajectory r = TrajectoryList (f sat)) df' sats.
Proof.
  intros H. revert df'. induction H as [|r sat df sats Hr _ IH]; intros df' Hd.
  - simpl in Hd. inversion Hd. constructor.
  - simpl in Hd. rewrite Hr in Hd. simpl in Hd.
    destruct (apply_json_loads df) as [rest|]; [|discriminate].
    inversion Hd; subst. constructor; [reflexivity|now apply IH].
Qed.

Lemma to_numeric_coerce_cells {S : Type} (c : S -> trajectory_cell)
  (df : dataframe) (sats : list S) :
  Forall2 (fun r sat => Trajectory r = c sat) df sats ->
  Forall2 (fun r sat => Trajectory r = c sat) (to_numeric_coerce df) sats.
Proof.
  induction 1 as [|r sat df sats Hr _ IH]; simpl; constructor; assumption.
Qed.

Section CatalogFacts.

Variables sat_data satellite : Type.
Variable from_omm : sat_data -> option satellite.
Variable geographic_position_of : satellite -> Q -> geographic.
Variable round2 : float -> float.
Variable np_mean : list float -> float.
Variable now : datetime.
Variable utc_datetime : Q -> datetime.

#[local] Abbreviation track' :=
  (track geographic_position_of round2 now utc_datetime).

#[local] Abbreviation sample_at sat i :=
  (point_of round2 (nth i (timeVector now) 0%Q)
            (geographic_position_of sat (nth i (timeVector now) 0%Q))).

Lemma track_length (sat : satellite) : length (track' sat) = 144%nat.
Proof. unfold track. now rewrite length_map, timeVector_length. Qed.

Lemma track_timestamps (sat : satellite) :
  map pt_timestamp (track' sat) = map Some (map utc_datetime (timeVector now)).
Proof. unfold track. rewrite !map_map. reflexivity. Qed.

Lemma track_nth (sat : satellite) (i : nat) :
  (i < 144)%nat ->
  nth_error (track' sat) i = Some (stored_point utc_datetime (sample_at sat i)).
Proof.
  intros Hi. unfold track. rewrite nth_error_map.
  rewrite (nth_error_nth' _ 0%Q) by now rewrite timeVector_length.
  reflexivity.
Qed.

(** The rows built by [get_position] hold the tracks of accepted element
    sets. *)
Lemma built_rows_hold_tracks (as_text : bool) (df : dataframe)
  (sds : list sat_data) :
  Forall2 (built_by_get_position from_omm geographic_position_of round2
             np_mean now utc_datetime as_text) df sds ->
  exists sats,
    Forall2 (fun sd sat => from_omm sd = Some sat) sds sats
    /\ Forall2 (fun r sat => Trajectory r = stored_cell as_text (track' sat))
               df sats.
Proof.
  induction 1 as [|r sd df sds (path & m & Hg & Ht) _ (sats & Hs & Hc)].
  - exists []. split; constructor.
  - destruct (get_position_inv _ _ _ _ _ _ _ _ _ _ Hg) as (sat & Hsat & Hp & _).
    exists (sat :: sats). split; constructor; try assumption.
    rewrite Ht, Hp. unfold track. now rewrite map_map.
Qed.

(** What the loader makes of such rows. *)
Lemma warehouse_snapshot_of_tracks (as_text : bool) (e : env)
  (df0 : dataframe) (sats : list satellite) (d : cached_data) :
  gbq_main e = Some df0 ->
  Forall2 (fun r sat => Trajectory r = stored_cell as_text (track' sat))
          df0 sats ->
  warehouse_snapshot e = Some d ->
  Forall2 (fun r sat => Trajectory r = TrajectoryList (track' sat))
          (c_main d) sats
  /\ c_timestamps d = map utc_datetime (timeVector now).
Proof.
  intros Hdf Hcells Hw. unfold warehouse_snapshot in Hw. rewrite Hdf in Hw.
  destruct df0 as [|first rest]; [discriminate|].
  destruct (if is_str _ then _ else _) as [df'|] eqn:Hd; [|discriminate].
  assert (Hlists : Forall2 (fun r sat =>
                              Trajectory r = TrajectoryList (track' sat))
                           df' sats).
  { inversion Hcells as [|r0 sat0 df1 sats1 H0 Hrest]; subst.
    destruct as_text; simpl in H0.
    - apply (apply_json_loads_decodes track' (first :: rest));
        [exact Hcells|].
      rewrite H0 in Hd at 1. exact Hd.
    - rewrite H0 in Hd. inversion Hd; subst. exact Hcells. }
  pose proof (to_numeric_coerce_cells
                (fun sat => TrajectoryList (track' sat)) df' sats Hlists)
    as Hnum.
  destruct (gbq_kpi e) as [kpi|]; [|discriminate].
  destruct (timestamps_raw (to_numeric_coerce df')) as [raw|] eqn:Hraw;
    [|discriminate].
  destruct (to_datetime raw) as [ts|] eqn:Hts; [|discriminate].
  inversion Hw; subst d; cbn [c_main c_kpi c_timestamps]. clear Hw.
  split; [exact Hnum|].
  unfold timestamps_raw in Hraw.
  revert Hraw. destruct Hnum as [|r0 sat0 df1 sats1 H0 Hrest]; intros Hraw;
    [discriminate|].
  rewrite H0 in Hraw.
  assert (Hr : raw = map pt_timestamp (track' sat0)) by congruence.
  rewrite Hr, track_timestamps, to_datetime_parsed in Hts. congruence.
Qed.

Lemma tracks_points (i : nat) (df : dataframe) (sats : list satellite) :
  (i < 144)%nat ->
  Forall2 (fun r sat => Trajectory r = TrajectoryList (track' sat)) df sats ->
  Forall2 (fun r sat =>
             point_at r (Z.of_nat i)
             = Some (stored_point utc_datetime (sample_at sat i))) df sats.
Proof.
  intros Hi. induction 1 as [|r sat df sats Hr _ IH]; constructor;
    [|exact IH].
  unfold point_at. rewrite Hr, py_index_nat. now apply track_nth.
Qed.

Lemma points_are_plotted (i : Z) (sn : option string) (df : dataframe)
  (sats : list satellite) (pt : satellite -> traj_point) :
  truthy sn = false ->
  Forall2 (fun r sat => point_at r i = Some (pt sat)) df sats ->
  filter (plotted i sn) df = df
  /\ map (marker_lat i) df = map (fun sat => pt_lat (pt sat)) sats
  /\ map (marker_lon i) df = map (fun sat => pt_lon (pt sat)) sats.
Proof.
  intros Ht. induction 1 as [|r sat df sats Hr _ (IH1 & IH2 & IH3)]; simpl.
  - repeat split.
  - unfold plotted at 1, marker_lat at 1, marker_lon at 1.
    rewrite Ht, Hr. simpl. now rewrite IH1, IH2, IH3.
Qed.


End CatalogFacts.


(** The time shown for the second grid instant of the concrete catalog. *)
Example built_catalog_second_instant :
  demo_utc_datetime (nth 1 (timeVector demo_now) 0%Q)
  = mk_datetime today 0 10 0 0
  /\ strftime_HM_UTC (demo_utc_datetime (nth 1 (timeVector demo_now) 0%Q))
     = "00:10 UTC"%string.
Proof. split; vm_compute; reflexivity. Qed.

(** ** Further facts: the ingestion function *)

Section FeedFacts.

Variable record : Type.
Variable read_csv : string -> list (list record) * bool.

Lemma skipn_head {A : Type} (l : list A) (index : nat) (a : A) (rest : list A) :
  skipn index l = a :: rest ->
  nth_error l index = Some a /\ skipn (S index) l = rest.
Proof.
  revert index. induction l as [|x l IH]; intros [|index] H; simpl in *;
    try discriminate.
  - inversion H; subst. now split.
  - now apply IH.
Qed.

(** When every feed asked for is read to its end, the generator yields the
    labelled chunks of all of them and ends normally. *)
Lemma feeds_from_all_read (us : list string) (index : nat) :
  (length us <= length (skipn index labels))%nat ->
  (forall url, In url us -> snd (read_csv url) = true) ->
  feeds_from read_csv index us
  = mk_generated (labelled_chunks read_csv (combine us (skipn index labels)))
                 us true.
Proof.
  revert index. induction us as [|url rest IH]; intros index Hlen Hall.
  - reflexivity.
  - simpl in Hlen. destruct (skipn index labels) as [|label ls] eqn:Hskip;
      [simpl in Hlen; lia|].
    destruct (skipn_head _ _ _ _ Hskip) as (Hlabel & Hnext).
    simpl. rewrite Hlabel.
    pose proof (Hall url (or_introl eq_refl)) as Hend.
    destruct (read_csv url) as [chunks ended] eqn:Hread.
    simpl in Hend. subst ended.
    rewrite (IH (S index)).
    + rewrite Hnext. simpl. now destruct chunks.
    + rewrite Hnext. simpl in Hlen. lia.
    + intros u Hu. apply Hall. now right.
Qed.

(** When the feeds before one are read to their end and that one breaks,
    the generator yields the labelled chunks read so far, asks for no later
    feed, and ends with the exception. *)
Lemma feeds_from_breaks (before : list string) (url : string)
  (after : list string) (index : nat) :
  (length (before ++ [url]) <= length (skipn index labels))%nat ->
  (forall u, In u before -> snd (read_csv u) = true) ->
  snd (read_csv url) = false ->
  feeds_from read_csv index (before ++ url :: after)
  = mk_generated
      (labelled_chunks read_csv
                       (combine (before ++ [url]) (skipn index labels)))
      (before ++ [url]) false.
Proof.
  revert index. induction before as [|u before IH]; intros index Hlen Hall Hbad.
  - simpl in Hlen. destruct (skipn index labels) as [|label ls] eqn:Hskip;
      [simpl in Hlen; lia|].
    destruct (skipn_head _ _ _ _ Hskip) as (Hlabel & _).
    simpl. rewrite Hlabel. destruct (read_csv url) as [chunks ended].
    simpl in Hbad. subst ended. simpl. rewrite app_nil_r.
    now destruct chunks.
  - simpl in Hlen. destruct (skipn index labels) as [|label ls] eqn:Hskip;
      [simpl in Hlen; lia|].
    destruct (skipn_head _ _ _ _ Hskip) as (Hlabel & Hnext).
    simpl. rewrite Hlabel.
    pose proof (Hall u (or_introl eq_refl)) as Hend.
    destruct (read_csv u) as [chunks ended] eqn:Hread.
    simpl in Hend. subst ended.
    rewrite (IH (S index)).
    + rewrite Hnext. simpl. now destruct chunks.
    + rewrite Hnext. simpl in Hlen. lia.
    + intros v Hv. apply Hall. now right.
    + exact Hbad.
Qed.

Lemma feeds_from_completed (us : list string) (index : nat) :
  (length us <= length (skipn index labels))%nat ->
  completed (feeds_from read_csv index us) = true ->
  forall url, In url us -> snd (read_csv url) = true.
Proof.
  revert index. induction us as [|u rest IH]; intros index Hlen Hdone url Hin.
  - contradiction.
  - simpl in Hlen. destruct (skipn index labels) as [|label ls] eqn:Hskip;
      [simpl in Hlen; lia|].
    destruct (skipn_head _ _ _ _ Hskip) as (Hlabel & Hnext).
    simpl in Hdone. rewrite Hlabel in Hdone.
    destruct (read_csv u) as [chunks ended] eqn:Hread.
    assert (Hboth : ended = true
                    /\ completed (feeds_from read_csv (S index) rest) = true).
    { destruct chunks, ended; simpl in Hdone;
        try discriminate; now split. }
    destruct Hboth as (-> & Hrest).
    destruct Hin as [<-|Hin].
    + now rewrite Hread.
    + apply (IH (S index)); [rewrite Hnext; simpl in Hlen; lia| |]; assumption.
Qed.

Lemma labelled_chunks_rows (feeds : list (string * string)) :
  concat (labelled_chunks read_csv feeds)
  = flat_map (fun '(url, label) =>
                map (fun r => (r, label)) (concat (fst (read_csv url))))
             feeds.
Proof.
  unfold labelled_chunks. induction feeds as [|[url label] feeds IH]; simpl.
  - reflexivity.
  - rewrite concat_app, IH. f_equal.
    unfold set_TYPE. induction (fst (read_csv url)) as [|c cs IHc]; simpl.
    + reflexivity.
    + now rewrite map_app, IHc.
Qed.

(** X13. When each of the five feeds is read to its end, the generator
    asks for the five URLs in order and ends normally, and what it yields
    is every chunk of every feed, in the order of the feeds, with the
    label of its feed in column TYPE: no row is lost, repeated or given
    another feed's label. *)
Theorem load_satellites_data_labels_every_row :
  (forall url, In url urls -> snd (read_csv url) = true) ->
  completed (load_satellites_data read_csv) = true
  /\ fetched (load_satellites_data read_csv) = urls
  /\ yielded (load_satellites_data read_csv)
     = labelled_chunks read_csv (combine urls labels)
  /\ concat (yielded (load_satellites_data read_csv))
     = flat_map (fun '(url, label) =>
                   map (fun r => (r, label)) (concat (fst (read_csv url))))
                (combine urls labels)
  /\ (forall chunk r label,
        In chunk (yielded (load_satellites_data read_csv)) ->
        In (r, label) chunk -> In label labels).
Proof.
  intros Hall. unfold load_satellites_data.
  rewrite (feeds_from_all_read urls 0) by (simpl; lia || exact Hall).
  cbn [completed fetched yielded skipn].
  split; [reflexivity|]. split; [reflexivity|]. split; [reflexivity|].
  split; [apply labelled_chunks_rows|].
  intros chunk r label Hchunk Hrow.
  unfold labelled_chunks in Hchunk. apply in_flat_map in Hchunk.
  destruct Hchunk as ([url l] & Hfeed & Hchunk).
  apply in_map_iff in Hchunk. destruct Hchunk as (c & <- & _).
  unfold set_TYPE in Hrow. apply in_map_iff in Hrow.
  destruct Hrow as (r0 & Heq & _). inversion Heq; subst.
  exact (in_combine_r _ _ _ _ Hfeed).
Qed.

(** X14. When the feeds before position [k] are read to their end and the
    feed at position [k] breaks, the generator ends with the exception
    after yielding the labelled chunks of the feeds before [k] and the
    chunks of feed [k] read before it broke; the feeds after [k] are not
    asked for. *)
Theorem load_satellites_data_stops_at_first_broken_feed (k : nat) :
  (k < 5)%nat ->
  (forall j, (j < k)%nat -> snd (read_csv (nth j urls EmptyString)) = true) ->
  snd (read_csv (nth k urls EmptyString)) = false ->
  completed (load_satellites_data read_csv) = false
  /\ fetched (load_satellites_data read_csv) = firstn (S k) urls
  /\ yielded (load_satellites_data read_csv)
     = labelled_chunks read_csv (combine (firstn (S k) urls) labels).
Proof.
  intros Hk Hbefore Hbad. unfold load_satellites_data.
  assert (Hsplit : urls = firstn k urls ++ nth k urls EmptyString
                                        :: skipn (S k) urls).
  { do 5 (destruct k as [|k]; [reflexivity|]). lia. }
  assert (Hfirst : firstn (S k) urls = firstn k urls ++ [nth k urls EmptyString]).
  { do 5 (destruct k as [|k]; [reflexivity|]). lia. }
  assert (Hg : feeds_from read_csv 0
                 (firstn k urls ++ nth k urls EmptyString :: skipn (S k) urls)
               = mk_generated
                   (labelled_chunks read_csv
                      (combine (firstn k urls ++ [nth k urls EmptyString])
                               (skipn 0 labels)))
                   (firstn k urls ++ [nth k urls EmptyString]) false).
  { apply feeds_from_breaks.
    - rewrite <- Hfirst, length_firstn. simpl. lia.
    - intros u Hu. destruct (In_nth _ _ EmptyString Hu) as (j & Hj & <-).
      rewrite length_firstn in Hj.
      rewrite nth_firstn.
      destruct (Nat.ltb_spec j k); [|lia]. apply Hbefore. lia.
    - exact Hbad. }
  rewrite <- Hsplit, <- Hfirst in Hg. rewrite Hg.
  repeat split.
Qed.

(** X15. The ingestion function answers Success with status 200 exactly
    when the pipeline is created, each of the five feeds is read to its
    end and the run goes through; otherwise it answers Failed with status
    500 and publishes nothing.  The message service has no part in the
    answer: whether the publication works or not, the answer is the same.
    At most one message is published, and it is the completion notice on
    the topic of the project. *)
Theorem main_answers_success_iff_pipeline_succeeds
  (project_id topic_name : string) (d : dlt) (ps : pubsub) :
  (fst (main read_csv project_id topic_name d ps) = ("Success"%string, 200)
   <-> pipeline_raises d = false
       /\ (forall url, In url urls -> snd (read_csv url) = true)
       /\ run_raises d = false)
  /\ (fst (main read_csv project_id topic_name d ps) <> ("Success"%string, 200)
      -> fst (main read_csv project_id topic_name d ps) = ("Failed"%string, 500)
         /\ filter is_publish (snd (main read_csv project_id topic_name d ps))
            = [])
  /\ (forall ps',
        fst (main read_csv project_id topic_name d ps')
        = fst (main read_csv project_id topic_name d ps))
  /\ (filter is_publish (snd (main read_csv project_id topic_name d ps)) = []
      \/ filter is_publish (snd (main read_csv project_id topic_name d ps))
         = [Publish (topic_path project_id topic_name)
                    "Ingestion logic completed"%string])
  /\ (fst (main read_csv project_id topic_name d ps) = ("Success"%string, 200)
      -> client_raises ps = false
      -> filter is_publish (snd (main read_csv project_id topic_name d ps))
         = [Publish (topic_path project_id topic_name)
                    "Ingestion logic completed"%string]).
Proof.
  assert (Hdone : completed (load_satellites_data read_csv) = true
                  <-> forall url, In url urls -> snd (read_csv url) = true).
  { unfold load_satellites_data. split.
    - apply feeds_from_completed. simpl. lia.
    - intros Hall. rewrite (feeds_from_all_read urls 0);
        [reflexivity|simpl; lia|exact Hall]. }
  unfold main, publish_message.
  destruct (pipeline_raises d) eqn:Hp; simpl.
  { split; [split; [discriminate|intros (H & _); discriminate]|].
    split; [intros _; split; reflexivity|].
    split; [reflexivity|]. split; [now left|discriminate]. }
  destruct (completed (load_satellites_data read_csv)) eqn:Hc; simpl.
  2:{ split; [split; [discriminate|]|].
      - intros (_ & Hall & _). apply Hdone in Hall. discriminate.
      - split; [intros _; split; reflexivity|].
        split; [reflexivity|]. split; [now left|discriminate]. }
  destruct (run_raises d) eqn:Hr; simpl.
  { split; [split; [discriminate|intros (_ & _ & H); discriminate]|].
    split; [intros _; split; reflexivity|].
    split; [reflexivity|]. split; [now left|discriminate]. }
  assert (Hall : forall url, In url urls -> snd (read_csv url) = true)
    by (now apply Hdone).
  split; [|split; [|split; [|split]]].
  - destruct (client_raises ps); [|destruct (publish_result ps)]; simpl;
      (split; [intros _; repeat split; assumption|reflexivity]).
  - destruct (client_raises ps); [|destruct (publish_result ps)]; simpl;
      intros H; exfalso; now apply H.
  - intros ps'.
    destruct (client_raises ps'); [|destruct (publish_result ps')];
      (destruct (client_raises ps); [|destruct (publish_result ps)]);
      reflexivity.
  - destruct (client_raises ps); [|destruct (publish_result ps)]; simpl;
      [now left|now right|now right].
  - intros _ Hclient. rewrite Hclient.
    destruct (publish_result ps); reflexivity.
Qed.

End FeedFacts.

Lemma load_satellites_data_labels_every_row_witness :
  (forall url, In url urls -> snd (reader_ok url) = true)
  /\ completed (load_satellites_data reader_ok) = true
  /\ fetched (load_satellites_data reader_ok) = urls
  /\ concat (yielded (load_satellites_data reader_ok))
     = flat_map (fun '(url, label) =>
                   map (fun r => (r, label)) (concat (fst (reader_ok url))))
                (combine urls labels).
Proof.
  assert (Hall : forall url, In url urls -> snd (reader_ok url) = true)
    by reflexivity.
  destruct (load_satellites_data_labels_every_row nat reader_ok Hall)
    as (Hc & Hf & _ & Hrows & _).
  split; [exact Hall|]. split; [exact Hc|]. split; [exact Hf|exact Hrows].
Defined.

Lemma load_satellites_data_stops_at_first_broken_feed_witness :
  snd (reader_third_fails (nth 2 urls EmptyString)) = false
  /\ completed (load_satellites_data reader_third_fails) = false
  /\ fetched (load_satellites_data reader_third_fails) = firstn 3 urls
  /\ map (map snd) (yielded (load_satellites_data reader_third_fails))
     = [ ["Active"; "Active"]; ["Active"];
         ["Debris (Cosmos 1408)"; "Debris (Cosmos 1408)"];
         ["Debris (Cosmos 1408)"];
         ["Debris (Fengyun 1C)"; "Debris (Fengyun 1C)"] ]%string.
Proof.
  assert (Hk : (2 < 5)%nat) by lia.
  assert (Hbefore : forall j, (j < 2)%nat ->
            snd (reader_third_fails (nth j urls EmptyString)) = true).
  { intros [|[|j]] Hj; [reflexivity|reflexivity|lia]. }
  destruct (load_satellites_data_stops_at_first_broken_feed
              nat reader_third_fails 2 Hk Hbefore eq_refl)
    as (Hc & Hf & Hy).
  split; [reflexivity|]. split; [exact Hc|]. split; [exact Hf|].
  rewrite Hy. reflexivity.
Defined.

Example main_on_concrete_services :
  main reader_ok "p" "t" dlt_ok pubsub_ok
  = (("Success", 200),
     [ LogInfo "Ingestion pipeline finished successfully.";
       Publish "projects/p/topics/t" "Ingestion logic completed";
       LogInfo "Message published successfully ID: 4711" ])%string
  /\ main reader_ok "p" "t" dlt_ok pubsub_down
     = (("Success", 200),
        [ LogInfo "Ingestion pipeline finished successfully.";
          LogException "failed to publish message" ])%string
  /\ main reader_third_fails "p" "t" dlt_ok pubsub_ok
     = (("Failed", 500), [ LogException "Ingestion pipeline crashed" ])%string.
Proof. repeat split. Qed.
